(** * Verisure client: session establishment and resource calls

    A shallow embedding of [verisure.go] (package [verisure]).  The package
    talks to the vendor's REST API through Go's [net/http] and
    [encoding/json]; those libraries are not part of the package and are
    taken here as a [Platform] on which the package's own code runs.

    The source file holds two revisions of the package.  The later one
    (with a [giid] field and the [giid] decoding function) is embedded at
    top level; the part of the earlier one that differs in behaviour (an
    [installations] slice indexed at [0]) is embedded in [Module Legacy]. *)

From Stdlib Require Import ZArith.
From stdpp Require Import base option list strings gmap pretty.

Local Open Scope Z_scope.
Local Open Scope string_scope.
Local Set Warnings "-register-all".

(** ** Values shared with the platform *)

(** A Go [error] value, identified with its [Error()] text; the [nil]
    error is [None] of [option error]. *)
Definition error := string.

(** Result of a library call of shape [(T, error)] whose value is only
    meaningful when the error is [nil]. *)
Inductive result (A : Type) : Type :=
| Ok (a : A)
| Err (err : error).
Arguments Ok {A} a.
Arguments Err {A} err.

(** What [encoding/json] produces when it decodes into [interface{}]:
    [nil], [bool], a number, [string], [[]interface{}] or an object.  An
    object keeps its members in document order; the decoder stores them
    into a Go map one after the other (see [store_members]). *)
Inductive JSON : Type :=
| JNull
| JBool (b : bool)
| JNumber (lit : string)
| JString (s : string)
| JArray (elems : list JSON)
| JObject (members : list (string * JSON)).

(** [http.Header] is a [map[string][]string]. *)
Abbreviation Header_t := (gmap string (list string)).

(** An [*http.Request] as the package builds it.  [auth] holds the
    credentials given to [SetBasicAuth] (on the wire they travel encoded in
    the [Authorization] header); [body] is the content of the body reader,
    [None] for a [nil] reader. *)
Record Request : Type := mkRequest {
  Method : string;
  URL : string;
  Header : Header_t;
  auth : option (string * string);
  body : option string
}.

(** The fields of [*http.Response] the package reads. *)
Record Response : Type := mkResponse {
  StatusCode : Z;
  Status : string;
  Body : string
}.

(** SmartPlugState command *)
Record SmartPlugState : Type := mkSmartPlugState {
  DeviceLabel : string;
  State : bool
}.

(** ** The platform: [net/http], [net/url] and [encoding/json] *)

Class Platform : Type := {
  (** [http.Client] with its cookie jar, and the network and servers
      behind it. *)
  Client : Type;
  (** [http.Client{Jar: jar}] for a jar fresh from [cookiejar.New(nil)]. *)
  fresh_Client : Client;
  (** [client.Do(req.WithContext(ctx))]: the exchange may change the jar
      and the server; it yields a response or a transport error.  The
      context is only ever handed to this call, so what a cancelled or
      expired context does is part of what [Do] answers. *)
  Do : Client -> Request -> Client * result Response;
  (** the error, if any, that [http.NewRequest] reports for a URL text *)
  url_Parse : string -> option error;
  (** [json.Marshal(updates)] for [updates []SmartPlugState] *)
  json_Marshal : list SmartPlugState -> result string;
  (** the first JSON value of a body, as [json.Decoder] reads it, or the
      error of the reading (a syntax error, a number that does not fit a
      [float64]) *)
  json_read : string -> result JSON;
  (** the [Overview] struct and [json.NewDecoder(body).Decode(&o)] on its
      zero value: the struct as left by the decoder, and the error *)
  OverviewData : Type;
  zero_Overview : OverviewData;
  json_Decode_Overview : string -> OverviewData * option error
}.

(** ** Package-level variables and constants *)

Definition mediaType : string := "application/json".

Definition apiURLs : list string :=
  [ "https://e-api01.verisure.com/xbn/2";
    "https://e-api02.verisure.com/xbn/2" ].

Definition MethodGet : string := "GET".
Definition MethodPost : string := "POST".
Definition MethodDelete : string := "DELETE".
Definition StatusOK : Z := 200.

(** [fmt.Errorf] with no verbs, and with the verbs [%d %s] after a
    prefix. *)
Definition Errorf (msg : string) : error := msg.
Definition Errorf_d_s (pre : string) (d : Z) (s : string) : error :=
  pre +:+ pretty d +:+ " " +:+ s.

(** ** Requests *)

(** [h.Add(key, value)]: appends to the values of the key.  The two keys
    the package uses are already in canonical form. *)
Definition Header_Add (key value : string) (h : Header_t) : Header_t :=
  <[key := (default [] (h !! key) ++ [value])%list]> h.

(** [h.Get(key)]: the first value of the key, [""] when there is none. *)
Definition Header_Get (key : string) (h : Header_t) : string :=
  default "" (head (default [] (h !! key))).

(** [http.NewRequest(method, url, body)]: no headers are set. *)
Definition http_NewRequest `{Platform}
    (method url : string) (b : option string) : result Request :=
  match url_Parse url with
  | Some err => Err err
  | None => Ok (mkRequest method url ∅ None b)
  end.

Definition Header_update (f : Header_t -> Header_t) (req : Request) : Request :=
  mkRequest (Method req) (URL req) (f (Header req)) (auth req) (body req).

Definition SetBasicAuth (username password : string) (req : Request) : Request :=
  mkRequest (Method req) (URL req) (Header req) (Some (username, password)) (body req).

Definition newRequest `{Platform}
    (method url : string) (b : option string) : result Request :=
  match http_NewRequest method url b with
  | Err err => Err err
  | Ok req =>
      let req := Header_update (Header_Add "Accept" mediaType) req in
      let req := Header_update (Header_Add "Content-Type" mediaType) req in
      Ok req
  end.

(** ** Decoding the installation search *)

(** Members of a JSON object stored into a [map[string]interface{}] in
    document order: a repeated key keeps its last value. *)
Definition store_members (members : list (string * JSON)) : gmap string JSON :=
  foldl (fun m kv => <[kv.1 := kv.2]> m) ∅ members.

(** One element of the array decoded into [map[string]interface{}]:
    [null] leaves the nil map, anything but an object is a type error. *)
Definition decode_map (j : JSON) : result (gmap string JSON) :=
  match j with
  | JObject members => Ok (store_members members)
  | JNull => Ok ∅
  | _ => Err "json: cannot unmarshal into Go value of type map[string]interface {}"
  end.

Fixpoint decode_maps (js : list JSON) : result (list (gmap string JSON)) :=
  match js with
  | [] => Ok []
  | j :: js' =>
      match decode_map j, decode_maps js' with
      | Ok m, Ok ms => Ok (m :: ms)
      | Err err, _ => Err err
      | _, Err err => Err err
      end
  end.

(** [json.NewDecoder(rc).Decode(&result)] for
    [result := make([]map[string]interface{}, 0)]. *)
Definition Decode_maps `{Platform} (rc : string) : result (list (gmap string JSON)) :=
  match json_read rc with
  | Err err => Err err
  | Ok (JArray elems) => decode_maps elems
  | Ok JNull => Ok []
  | Ok _ => Err "json: cannot unmarshal into Go value of type []map[string]interface {}"
  end.

(** The type assertion [x.(string)] in its two-value form; a missing map
    entry is the nil interface. *)
Definition assert_string (x : option JSON) : string * bool :=
  match x with
  | Some (JString s) => (s, true)
  | _ => ("", false)
  end.

Definition giid `{Platform} (rc : string) : string * option error :=
  match Decode_maps rc with
  | Err err => ("", Some err)
  | Ok result =>
      if bool_decide (length result < 1)%nat then
        ("", Some (Errorf "no installations found"))
      else
        let '(giid, ok) := assert_string ((result !!! 0%nat) !! "giid") in
        if negb ok then (giid, Some (Errorf "no giid found"))
        else (giid, None)
  end.

(** ** The client and the computations on it *)

(** Verisure app API client *)
Module Verisure.
Record t `{Platform} : Type := mk {
  baseURL : string;
  giid : string;
  client : Client
}.

(** Assignments to one field of [*v]. *)
Definition with_baseURL `{Platform} (u : string) (v : t) : t :=
  mk _ u (giid v) (client v).
Definition with_giid `{Platform} (g : string) (v : t) : t :=
  mk _ (baseURL v) g (client v).
Definition with_client `{Platform} (cl : Client) (v : t) : t :=
  mk _ (baseURL v) (giid v) cl.
End Verisure.

(** A configuration: the client the method is called on, and the requests
    handed to [client.Do] so far, oldest first. *)
Record Cfg `{Platform} : Type := mkCfg {
  self : Verisure.t;
  issued : list Request
}.

(** A method body: it reads and writes the receiver and issues requests. *)
Definition M `{Platform} (A : Type) : Type := Cfg -> A * Cfg.

#[export] Instance M_ret `{Platform} : MRet M := fun _ a c => (a, c).
#[export] Instance M_bind `{Platform} : MBind M :=
  fun _ _ k m c => let '(a, c') := m c in k a c'.

Section Methods.
Context `{Platform}.

Definition get_baseURL : M string :=
  fun c => (Verisure.baseURL (self c), c).
Definition get_giid : M string :=
  fun c => (Verisure.giid (self c), c).

(** [v.baseURL = u] *)
Definition set_baseURL (u : string) : M unit :=
  fun c => (tt, mkCfg _ (Verisure.with_baseURL u (self c)) (issued c)).

(** [v.giid = g] *)
Definition set_giid (g : string) : M unit :=
  fun c => (tt, mkCfg _ (Verisure.with_giid g (self c)) (issued c)).

(** [v.client.Do(req.WithContext(ctx))] *)
Definition client_Do (req : Request) : M (result Response) :=
  fun c =>
    let '(cl, r) := Do (Verisure.client (self c)) req in
    (r, mkCfg _ (Verisure.with_client cl (self c)) (issued c ++ [req])%list).

Definition authenticate (username password : string) : M (option error) :=
  base ← get_baseURL;
  match newRequest MethodPost (base +:+ "/cookie") None with
  | Err err => mret (Some err)
  | Ok req =>
      let req := SetBasicAuth ("CPE/" +:+ username) password req in
      r ← client_Do req;
      match r with
      | Err err => mret (Some err)
      | Ok res =>
          if bool_decide (StatusCode res ≠ StatusOK) then
            mret (Some (Errorf_d_s "login: " (StatusCode res) (Status res)))
          else mret None
      end
  end.

(** The loop [for _, u := range urls] of [tryURLs], entered with the
    current value of [err]. *)
Fixpoint tryURLs_range (urls : list string) (username password : string)
    (err : option error) : M (option error) :=
  match urls with
  | [] => mret err
  | u :: urls' =>
      _ ← set_baseURL u;
      err ← authenticate username password;
      match err with
      | None => mret err
      | Some _ => tryURLs_range urls' username password err
      end
  end.

(** [tryURLs] over the value [urls] of the package variable [apiURLs]. *)
Definition tryURLs (urls : list string) (username password : string)
    : M (option error) :=
  tryURLs_range urls username password None.

Definition installation (username : string) : M (string * option error) :=
  base ← get_baseURL;
  let url := base +:+ "/installation/search?email=" +:+ username in
  match newRequest MethodGet url None with
  | Err err => mret ("", Some err)
  | Ok req =>
      r ← client_Do req;
      match r with
      | Err err => mret ("", Some err)
      | Ok res =>
          if bool_decide (StatusCode res ≠ StatusOK) then
            mret ("", Some (Errorf_d_s "installations: " (StatusCode res) (Status res)))
          else mret (giid (Body res))
      end
  end.

(** Login ...  ([urls] is the value of [apiURLs] at the call.) *)
Definition Login (urls : list string) (username password : string)
    : M (option error) :=
  err ← tryURLs urls username password;
  match err with
  | Some _ => mret err
  | None =>
      '(giid, err) ← installation username;
      match err with
      | Some _ => mret err
      | None => _ ← set_giid giid; mret None
      end
  end.

(** Logout ... *)
Definition Logout : M (option error) :=
  base ← get_baseURL;
  match http_NewRequest MethodDelete (base +:+ "/cookie") None with
  | Err err => mret (Some err)
  | Ok req =>
      r ← client_Do req;
      match r with
      | Err err => mret (Some err)
      | Ok res =>
          if bool_decide (StatusCode res ≠ StatusOK) then
            mret (Some (Errorf_d_s "logout: " (StatusCode res) (Status res)))
          else mret None
      end
  end.

(** Overview ... *)
Definition Overview : M (OverviewData * option error) :=
  let o := zero_Overview in
  base ← get_baseURL;
  g ← get_giid;
  let url := base +:+ "/installation/" +:+ g +:+ "/overview" in
  match newRequest MethodGet url None with
  | Err err => mret (o, Some err)
  | Ok req =>
      r ← client_Do req;
      match r with
      | Err err => mret (o, Some err)
      | Ok res =>
          if bool_decide (StatusCode res ≠ StatusOK) then
            mret (o, Some (Errorf_d_s "overview: " (StatusCode res) (Status res)))
          else
            let '(o, err) := json_Decode_Overview (Body res) in
            match err with
            | Some _ => mret (o, err)
            | None => mret (o, None)
            end
      end
  end.

(** UpdateSmartplug ... *)
Definition UpdateSmartplug (updates : list SmartPlugState) : M (option error) :=
  match json_Marshal updates with
  | Err err => mret (Some err)
  | Ok bs =>
      base ← get_baseURL;
      g ← get_giid;
      let url := base +:+ "/installation/" +:+ g +:+ "/smartplug/state" in
      match newRequest MethodPost url (Some bs) with
      | Err err => mret (Some err)
      | Ok req =>
          r ← client_Do req;
          match r with
          | Err err => mret (Some err)
          | Ok res =>
              if bool_decide (StatusCode res ≠ StatusOK) then
                mret (Some (Errorf_d_s "smartplug: " (StatusCode res) (Status res)))
              else mret None
          end
      end
  end.

(** New Verisure client *)
Definition New : Verisure.t := Verisure.mk _ "" "" fresh_Client.

(** NewWithGIID when giid is known *)
Definition NewWithGIID (giid : string) : Verisure.t :=
  let v := New in
  Verisure.with_giid giid v.

End Methods.

(** ** The earlier revision of the package

    It keeps the decoded installation records in the client and reads the
    identifier from the first of them.  Indexing a Go slice out of range
    panics, so a method body here either returns or panics. *)
Module Legacy.

Inductive outcome (A : Type) : Type :=
| Returns (a : A)
| Panics (msg : string).
Arguments Returns {A} a.
Arguments Panics {A} msg.

Record installation : Type := mkInstallation {
  GIID : string;
  FirmwareVersion : Z;
  RoutingGroup : string;
  Shard : Z;
  Locale : string;
  SignalFilterID : Z;
  Deleted : bool;
  CID : string;
  Street : string;
  StreetNo1 : string;
  StreetNo2 : string;
  Alias : string
}.

(** Verisure app API client *)
Record Verisure `{Platform} : Type := mkVerisure {
  baseURL : string;
  client : Client;
  installations : list installation
}.

Section Methods.
Context `{Platform}.

(** [s[i]] on a slice: a run-time panic when [i] is out of range. *)
Definition index {A : Type} (s : list A) (i : nat) : outcome A :=
  match s !! i with
  | Some a => Returns a
  | None =>
      Panics ("runtime error: index out of range [" +:+ pretty i
              +:+ "] with length " +:+ pretty (length s))
  end.

(** [v.client.Do(req.WithContext(ctx))], with the log of issued
    requests. *)
Definition client_Do (req : Request) (v : Verisure) (log : list Request)
    : result Response * (Verisure * list Request) :=
  let '(cl, r) := Do (client v) req in
  (r, (mkVerisure _ (baseURL v) cl (installations v), (log ++ [req])%list)).

(** Overview ... *)
Definition Overview (v : Verisure) (log : list Request)
    : outcome ((OverviewData * option error) * (Verisure * list Request)) :=
  let o := zero_Overview in
  match index (installations v) 0 with
  | Panics msg => Panics msg
  | Returns i0 =>
      let url := baseURL v +:+ "/installation/" +:+ GIID i0 +:+ "/overview" in
      match newRequest MethodGet url None with
      | Err err => Returns ((o, Some err), (v, log))
      | Ok req =>
          let '(r, vl) := client_Do req v log in
          match r with
          | Err err => Returns ((o, Some err), vl)
          | Ok res =>
              if bool_decide (StatusCode res ≠ StatusOK) then
                Returns ((o, Some (Errorf_d_s "overview: " (StatusCode res) (Status res))), vl)
              else
                let '(o, err) := json_Decode_Overview (Body res) in
                match err with
                | Some _ => Returns ((o, err), vl)
                | None => Returns ((o, None), vl)
                end
          end
      end
  end.

(** UpdateSmartplug ... *)
Definition UpdateSmartplug (updates : list SmartPlugState)
    (v : Verisure) (log : list Request)
    : outcome (option error * (Verisure * list Request)) :=
  match json_Marshal updates with
  | Err err => Returns (Some err, (v, log))
  | Ok bs =>
      match index (installations v) 0 with
      | Panics msg => Panics msg
      | Returns i0 =>
          let url := baseURL v +:+ "/installation/" +:+ GIID i0 +:+ "/smartplug/state" in
          match newRequest MethodPost url (Some bs) with
          | Err err => Returns (Some err, (v, log))
          | Ok req =>
              let '(r, vl) := client_Do req v log in
              match r with
              | Err err => Returns (Some err, vl)
              | Ok res =>
                  if bool_decide (StatusCode res ≠ StatusOK) then
                    Returns (Some (Errorf_d_s "smartplug: " (StatusCode res) (Status res)), vl)
                  else Returns (None, vl)
              end
          end
      end
  end.

(** New Verisure client: [installations: make([]installation, 0)] *)
Definition New : Verisure := mkVerisure _ "" fresh_Client [].

End Methods.

(** The session manager of the earlier revision.  [Login] decodes the
    answer of the search straight into [v.installations]; that decoding,
    into a slice of structs, is left to the platform's decoder. *)
Section Session.
Context `{Platform}.

(** [json.NewDecoder(body).Decode(&v.installations)]: from the body and
    the slice as it is, the slice as the decoder leaves it and the
    error. *)
Variable Decode_installations :
  string -> list installation -> list installation * option error.

Definition authenticate (username password : string)
    (v : Verisure) (log : list Request)
    : option error * (Verisure * list Request) :=
  match newRequest MethodPost (baseURL v +:+ "/cookie") None with
  | Err err => (Some err, (v, log))
  | Ok req =>
      let req := SetBasicAuth ("CPE/" +:+ username) password req in
      let '(r, vl) := client_Do req v log in
      match r with
      | Err err => (Some err, vl)
      | Ok res =>
          if bool_decide (StatusCode res ≠ StatusOK) then
            (Some (Errorf_d_s "login: " (StatusCode res) (Status res)), vl)
          else (None, vl)
      end
  end.

(** The loop of [tryURLs], entered with the current value of [err]. *)
Fixpoint tryURLs_range (urls : list string) (username password : string)
    (err : option error) (v : Verisure) (log : list Request)
    : option error * (Verisure * list Request) :=
  match urls with
  | [] => (err, (v, log))
  | u :: urls' =>
      let v := mkVerisure _ u (client v) (installations v) in
      let '(err, (v, log)) := authenticate username password v log in
      match err with
      | None => (err, (v, log))
      | Some _ => tryURLs_range urls' username password err v log
      end
  end.

Definition tryURLs (urls : list string) (username password : string)
    (v : Verisure) (log : list Request)
    : option error * (Verisure * list Request) :=
  tryURLs_range urls username password None v log.

(** The method [installation] of the client. *)
Definition Verisure_installation (username : string)
    (v : Verisure) (log : list Request)
    : option error * (Verisure * list Request) :=
  let url := baseURL v +:+ "/installation/search?email=" +:+ username in
  match newRequest MethodGet url None with
  | Err err => (Some err, (v, log))
  | Ok req =>
      let '(r, (v, log)) := client_Do req v log in
      match r with
      | Err err => (Some err, (v, log))
      | Ok res =>
          if bool_decide (StatusCode res ≠ StatusOK) then
            (Some (Errorf_d_s "installations: " (StatusCode res) (Status res)),
             (v, log))
          else
            let '(decoded, err) :=
              Decode_installations (Body res) (installations v) in
            (err, (mkVerisure _ (baseURL v) (client v) decoded, log))
      end
  end.

(** Login ...  ([urls] is the value of [apiURLs] at the call.) *)
Definition Login (urls : list string) (username password : string)
    (v : Verisure) (log : list Request)
    : option error * (Verisure * list Request) :=
  let '(err, (v, log)) := tryURLs urls username password v log in
  match err with
  | Some _ => (err, (v, log))
  | None => Verisure_installation username v log
  end.

End Session.
End Legacy.

(** ** The command

    [main] of the command-line program: it logs in with the credentials
    given as flags, prints the overview and logs out; [must] ends the
    process at the first error. *)
Module Cmd.
Section Main.
Context `{Platform}.

(** What the process has written: the values given to [fmt.Println] and
    the lines given to [fmt.Fprintln(os.Stderr, ..)], oldest first. *)
Record Output : Type := mkOutput {
  stdout : list OverviewData;
  stderr : list string
}.

(** [must(cancel, err)]: on an error the context is cancelled, the text of
    the error goes to standard error and the process exits with status 2
    ([Some 2]); on [nil] the process goes on ([None]). *)
Definition must (err : option error) (out : Output) : Output * option Z :=
  match err with
  | Some e => (mkOutput (stdout out) (stderr out ++ [e])%list, Some 2)
  | None => (out, None)
  end.

(** [main], from the parsed flags: the output, the exit status (0 when
    [main] returns) and the client with the requests issued. *)
Definition main (username password : string) : Output * Z * Cfg :=
  let out := mkOutput [] [] in
  let client := mkCfg _ New [] in
  let '(err, client) := Login apiURLs username password client in
  match must err out with
  | (out, Some code) => (out, code, client)
  | (out, None) =>
      let '((o, err), client) := Overview client in
      match must err out with
      | (out, Some code) => (out, code, client)
      | (out, None) =>
          let out := mkOutput (stdout out ++ [o])%list (stderr out) in
          let '(err, client) := Logout client in
          match must err out with
          | (out, Some code) => (out, code, client)
          | (out, None) => (out, 0, client)
          end
      end
  end.

End Main.
End Cmd.

(** ** Vocabulary of the specification *)

(** The two headers every request is meant to carry. *)
Definition json_headers : Header_t :=
  Header_Add "Content-Type" mediaType (Header_Add "Accept" mediaType ∅).

(** The authentication request for an endpoint: [POST {endpoint}/cookie]
    with Basic credentials [CPE/username : password] and no body. *)
Definition authRequest (endpoint username password : string) : Request :=
  mkRequest MethodPost (endpoint +:+ "/cookie") json_headers
            (Some ("CPE/" +:+ username, password)) None.

(** The installation search: [GET {endpoint}/installation/search?email=..]. *)
Definition searchRequest (endpoint username : string) : Request :=
  mkRequest MethodGet (endpoint +:+ "/installation/search?email=" +:+ username)
            json_headers None None.

(** A request to the installation-search route of some endpoint. *)
Definition is_search_request (q : Request) : Prop :=
  Method q = MethodGet /\
  exists endpoint username,
    URL q = endpoint +:+ "/installation/search?email=" +:+ username.

(** A request carries both JSON headers. *)
Definition has_json_headers (q : Request) : Prop :=
  Header_Get "Accept" (Header q) = mediaType /\
  Header_Get "Content-Type" (Header q) = mediaType.

(** The value a JSON object gives to a key: that of the key's last
    occurrence among the members (its only one in a well-formed record). *)
Definition member (key : string) (members : list (string * JSON)) : option JSON :=
  last (omap (fun kv => if decide (kv.1 = key) then Some kv.2 else None) members).

(** A configuration reached from another by issuing at most [n] more
    requests, the earlier ones kept as they were. *)
Definition extends_by `{Platform} (n : nat) (c c' : Cfg) : Prop :=
  exists new, issued c' = (issued c ++ new)%list /\ (length new <= n)%nat.

Definition is_object (j : JSON) : Prop :=
  match j with JObject _ => True | _ => False end.

Section Attempts.
Context `{Platform}.
Variables username password : string.

(** One authentication attempt at an endpoint, from a state of the
    client: the state it leaves, the requests it issued and its verdict
    ([None] exactly for a response with status 200). *)
Inductive attempt (endpoint : string) (cl : Client)
    : Client -> list Request -> option error -> Prop :=
| attempt_unbuilt err :
    url_Parse (endpoint +:+ "/cookie") = Some err ->
    attempt endpoint cl cl [] (Some err)
| attempt_transport cl' err :
    url_Parse (endpoint +:+ "/cookie") = None ->
    Do cl (authRequest endpoint username password) = (cl', Err err) ->
    attempt endpoint cl cl' [authRequest endpoint username password] (Some err)
| attempt_status cl' res :
    url_Parse (endpoint +:+ "/cookie") = None ->
    Do cl (authRequest endpoint username password) = (cl', Ok res) ->
    StatusCode res <> 200 ->
    attempt endpoint cl cl' [authRequest endpoint username password]
            (Some (Errorf_d_s "login: " (StatusCode res) (Status res)))
| attempt_accepted cl' res :
    url_Parse (endpoint +:+ "/cookie") = None ->
    Do cl (authRequest endpoint username password) = (cl', Ok res) ->
    StatusCode res = 200 ->
    attempt endpoint cl cl' [authRequest endpoint username password] None.

(** The authentication requests for a list of endpoints, in the order
    of the list; an endpoint for which no request can be built has
    none. *)
Definition auth_requests (urls : list string) : list Request :=
  map (fun u => authRequest u username password)
      (filter (fun u => url_Parse (u +:+ "/cookie") = None) urls).

(** Every endpoint of a list, attempted in order, fails. *)
Inductive all_rejected : list string -> Client -> Client -> list Request -> Prop :=
| all_rejected_nil cl : all_rejected [] cl cl []
| all_rejected_cons u us cl cl1 cl2 reqs1 reqs2 err :
    attempt u cl cl1 reqs1 (Some err) ->
    all_rejected us cl1 cl2 reqs2 ->
    all_rejected (u :: us) cl cl2 (reqs1 ++ reqs2)%list.

(** Every endpoint of a list, attempted in order, answers with a status
    other than 200. *)
Inductive all_non200 : list string -> Client -> Client -> Prop :=
| all_non200_nil cl : all_non200 [] cl cl
| all_non200_cons u us cl cl1 cl2 res :
    url_Parse (u +:+ "/cookie") = None ->
    Do cl (authRequest u username password) = (cl1, Ok res) ->
    StatusCode res <> 200 ->
    all_non200 us cl1 cl2 ->
    all_non200 (u :: us) cl cl2.
End Attempts.

(** ** A scripted platform

    A test double for the platform: the client answers the requests it is
    given with the entries of a script, in order, whatever the request;
    every URL is accepted; bodies are read through a small table, in whose
    keys a single quote stands for JSON's double quote. *)
Module Scripted.

Definition answer (script : list (result Response)) (req : Request)
    : list (result Response) * result Response :=
  match script with
  | [] => ([], Err "EOF")
  | r :: script' => (script', r)
  end.

Definition two_installations : string :=
  "[{'giid': 'ABC123', 'other': 1}, {'giid': 'ZZZ999'}]".

Definition read (rc : string) : result JSON :=
  if decide (rc = "[]") then Ok (JArray [])
  else if decide (rc = two_installations) then
    Ok (JArray [ JObject [("giid", JString "ABC123"); ("other", JNumber "1")];
                 JObject [("giid", JString "ZZZ999")] ])
  else if decide (rc = "[{'other': 1}]") then
    Ok (JArray [ JObject [("other", JNumber "1")] ])
  else Err "invalid character".

Definition platform (script : list (result Response))
    (marshal : list SmartPlugState -> result string) : Platform :=
  {| Client := list (result Response);
     fresh_Client := script;
     Do := answer;
     url_Parse := fun _ => None;
     json_Marshal := marshal;
     json_read := read;
     OverviewData := string;
     zero_Overview := "";
     json_Decode_Overview := fun b => (b, None) |}.

Definition no_marshal (updates : list SmartPlugState) : result string :=
  Err "json: unsupported value".

Definition status (code : Z) (text body : string) : result Response :=
  Ok (mkResponse code text body).

(** Both endpoints refuse the credentials. *)
Definition refused : Platform :=
  platform [status 401 "401 Unauthorized" ""; status 401 "401 Unauthorized" ""]
           no_marshal.

(** The first endpoint refuses, the second accepts and then lists two
    installations. *)
Definition second_accepts : Platform :=
  platform [status 401 "401 Unauthorized" ""; status 200 "200 OK" "";
            status 200 "200 OK" two_installations]
           no_marshal.

(** The first endpoint accepts and then lists no installation. *)
Definition no_installation : Platform :=
  platform [status 200 "200 OK" ""; status 200 "200 OK" "[]"] no_marshal.

(** The server answers one request with 200. *)
Definition one_ok : Platform :=
  platform [status 200 "200 OK" ""] no_marshal.

End Scripted.

(** More doubles, for the whole session: here the platform also takes
    the reader of bodies and the encoder. *)
Module Replay.

Definition platform (script : list (result Response))
    (read : string -> result JSON)
    (marshal : list SmartPlugState -> result string) : Platform :=
  {| Client := list (result Response);
     fresh_Client := script;
     Do := Scripted.answer;
     url_Parse := fun _ => None;
     json_Marshal := marshal;
     json_read := read;
     OverviewData := string;
     zero_Overview := "";
     json_Decode_Overview := fun b => (b, None) |}.

(** An encoder double: the labels of the updates, separated by commas. *)
Definition labels (updates : list SmartPlugState) : result string :=
  Ok (String.concat "," (map DeviceLabel updates)).

(** The first endpoint refuses; the second accepts, lists two
    installations, gives an overview and accepts the logout. *)
Definition session : Platform :=
  platform [Scripted.status 401 "401 Unauthorized" "";
            Scripted.status 200 "200 OK" "";
            Scripted.status 200 "200 OK" Scripted.two_installations;
            Scripted.status 200 "200 OK" "{'armstateCompatible': true}";
            Scripted.status 200 "200 OK" ""]
           Scripted.read labels.

(** The first endpoint accepts and refuses the search. *)
Definition search_refused : Platform :=
  platform [Scripted.status 200 "200 OK" "";
            Scripted.status 403 "403 Forbidden" ""]
           Scripted.read labels.

(** The first endpoint accepts and lists two installations; the overview
    is refused. *)
Definition overview_refused : Platform :=
  platform [Scripted.status 200 "200 OK" "";
            Scripted.status 200 "200 OK" Scripted.two_installations;
            Scripted.status 500 "500 Internal Server Error" ""]
           Scripted.read labels.

(** The first endpoint accepts, lists two installations and gives an
    overview; the connection is lost before the logout. *)
Definition logout_lost : Platform :=
  platform [Scripted.status 200 "200 OK" "";
            Scripted.status 200 "200 OK" Scripted.two_installations;
            Scripted.status 200 "200 OK" "{'armstateCompatible': true}"]
           Scripted.read labels.

(** A reader double for one body whose second element is a number. *)
Definition read_mixed (rc : string) : result JSON :=
  if decide (rc = "[{'giid': 'ABC123'}, 5]") then
    Ok (JArray [JObject [("giid", JString "ABC123")]; JNumber "5"])
  else Err "invalid character".

Definition mixed : Platform := platform [] read_mixed labels.

(** A double for the decoder of installation records: it knows the empty
    array. *)
Definition decode_installations (rc : string) (old : list Legacy.installation)
    : list Legacy.installation * option error :=
  if decide (rc = "[]") then ([], None) else (old, Some "invalid character").

End Replay.

(** ** Requests and headers *)

Section Facts.
Context `{Platform}.

Lemma Header_Get_Add_same key value (h : Header_t) :
  h !! key = None -> Header_Get key (Header_Add key value h) = value.
Proof.
  intros Hk. unfold Header_Get, Header_Add.
  rewrite lookup_insert_eq, Hk. reflexivity.
Qed.

Lemma Header_Get_Add_other key key' value (h : Header_t) :
  key <> key' -> Header_Get key' (Header_Add key value h) = Header_Get key' h.
Proof.
  intros Hne. unfold Header_Get, Header_Add.
  rewrite lookup_insert_ne by exact Hne. reflexivity.
Qed.

Lemma json_headers_Accept : Header_Get "Accept" json_headers = mediaType.
Proof.
  unfold json_headers.
  rewrite Header_Get_Add_other by discriminate.
  apply Header_Get_Add_same, lookup_empty.
Qed.

Lemma json_headers_Content_Type :
  Header_Get "Content-Type" json_headers = mediaType.
Proof.
  unfold json_headers. apply Header_Get_Add_same.
  unfold Header_Add. rewrite lookup_insert_ne by discriminate.
  apply lookup_empty.
Qed.

Lemma newRequest_built method url b :
  url_Parse url = None ->
  newRequest method url b = Ok (mkRequest method url json_headers None b).
Proof.
  intros Hu. unfold newRequest, http_NewRequest. rewrite Hu. reflexivity.
Qed.

Lemma newRequest_unbuilt method url b err :
  url_Parse url = Some err -> newRequest method url b = Err err.
Proof.
  intros Hu. unfold newRequest, http_NewRequest. rewrite Hu. reflexivity.
Qed.

(** Whatever [newRequest] returns carries both headers. *)
Lemma newRequest_headers method url b req :
  newRequest method url b = Ok req -> has_json_headers req.
Proof.
  unfold newRequest, http_NewRequest.
  destruct (url_Parse url); [discriminate |].
  intros [= <-]. split; cbn.
  - apply json_headers_Accept.
  - apply json_headers_Content_Type.
Qed.

(** [http.NewRequest] alone sets neither. *)
Lemma http_NewRequest_headers method url b req :
  http_NewRequest method url b = Ok req -> Header req = ∅.
Proof.
  unfold http_NewRequest. destruct (url_Parse url); [discriminate |].
  intros [= <-]. reflexivity.
Qed.

End Facts.

(** ** Resolve Installation: the decoding *)

Section Decoding.
Context `{Platform}.

Lemma member_cons key k v members :
  member key ((k, v) :: members) =
    match member key members with
    | Some x => Some x
    | None => if decide (k = key) then Some v else None
    end.
Proof.
  unfold member. cbn [omap list_omap fst snd].
  destruct (decide (k = key)); cbn; [| by destruct (last _)].
  rewrite last_cons. reflexivity.
Qed.

Lemma foldl_store_lookup key members : forall m0 : gmap string JSON,
  foldl (fun m kv => <[kv.1 := kv.2]> m) m0 members !! key =
    match member key members with
    | Some x => Some x
    | None => m0 !! key
    end.
Proof.
  induction members as [| [k v] members IH]; intros m0; [reflexivity |].
  cbn [foldl fst snd]. rewrite IH, member_cons.
  destruct (member key members); [reflexivity |].
  destruct (decide (k = key)) as [-> | Hne].
  - apply lookup_insert_eq.
  - by apply lookup_insert_ne.
Qed.

(** The Go map built from an object gives each key the value of its last
    occurrence. *)
Lemma store_members_lookup key members :
  store_members members !! key = member key members.
Proof.
  unfold store_members. rewrite foldl_store_lookup.
  destruct (member key members); [reflexivity | apply lookup_empty].
Qed.

Lemma decode_maps_objects (js : list JSON) :
  Forall is_object js -> exists ms, decode_maps js = Ok ms.
Proof.
  induction 1 as [| j js Hj _ [ms IH]]; [by exists [] |].
  destruct j; try contradiction.
  cbn [decode_maps decode_map]. rewrite IH. eauto.
Qed.

Lemma giid_of_result rc m ms :
  Decode_maps rc = Ok (m :: ms) ->
  giid rc =
    match m !! "giid" with
    | Some (JString s) => (s, None)
    | _ => ("", Some (Errorf "no giid found"))
    end.
Proof.
  intros Hd. unfold giid. rewrite Hd.
  rewrite bool_decide_eq_false_2 by (cbn; lia).
  change ((m :: ms) !!! 0%nat) with m.
  destruct (m !! "giid") as [[] |]; reflexivity.
Qed.

Lemma giid_no_installations rc :
  Decode_maps rc = Ok [] ->
  giid rc = ("", Some (Errorf "no installations found")).
Proof. intros Hd. unfold giid. rewrite Hd. reflexivity. Qed.

End Decoding.

(** ** Authentication and endpoint failover *)

Ltac run_M :=
  unfold mbind, M_bind, mret, M_ret, get_baseURL, get_giid, set_baseURL,
    set_giid, client_Do; cbn [self issued fst snd].

Section Failover.
Context `{Platform}.
Variables username password : string.

Lemma with_client_same (v : Verisure.t) :
  Verisure.with_client (Verisure.client v) v = v.
Proof. by destruct v. Qed.

(** [authenticate] realises an attempt at the client's current
    endpoint. *)
Lemma authenticate_attempt (v : Verisure.t) log cl' reqs r :
  attempt username password (Verisure.baseURL v) (Verisure.client v) cl' reqs r ->
  authenticate username password (mkCfg _ v log) =
    (r, mkCfg _ (Verisure.with_client cl' v) (log ++ reqs)%list).
Proof.
  intros Ha. unfold authenticate. run_M.
  inversion Ha as [err Hu | cl'' err Hu HD | cl'' res Hu HD Hs | cl'' res Hu HD Hs];
    subst.
  - rewrite (newRequest_unbuilt _ _ _ _ Hu).
    by rewrite with_client_same, app_nil_r.
  - rewrite (newRequest_built _ _ _ Hu).
    change (SetBasicAuth _ _ _) with
      (authRequest (Verisure.baseURL v) username password).
    cbn [self issued]. by rewrite HD.
  - rewrite (newRequest_built _ _ _ Hu).
    change (SetBasicAuth _ _ _) with
      (authRequest (Verisure.baseURL v) username password).
    cbn [self issued]. rewrite HD. by rewrite bool_decide_eq_true_2.
  - rewrite (newRequest_built _ _ _ Hu).
    change (SetBasicAuth _ _ _) with
      (authRequest (Verisure.baseURL v) username password).
    cbn [self issued]. rewrite HD. rewrite bool_decide_eq_false_2; [done |].
    intros Hne. by apply Hne.
Qed.

(** One turn of the loop whose attempt fails: the loop goes on with the
    next endpoint. *)
Lemma tryURLs_range_failed u urls err0 (v : Verisure.t) log cl' reqs err :
  attempt username password u (Verisure.client v) cl' reqs (Some err) ->
  tryURLs_range (u :: urls) username password err0 (mkCfg _ v log) =
    tryURLs_range urls username password (Some err)
      (mkCfg _ (Verisure.mk _ u (Verisure.giid v) cl') (log ++ reqs)%list).
Proof.
  intros Ha. cbn [tryURLs_range]. run_M.
  by rewrite (authenticate_attempt (Verisure.with_baseURL u v) log cl' reqs _ Ha).
Qed.

(** One turn of the loop whose attempt succeeds: the loop is left. *)
Lemma tryURLs_range_accepted u urls err0 (v : Verisure.t) log cl' reqs :
  attempt username password u (Verisure.client v) cl' reqs None ->
  tryURLs_range (u :: urls) username password err0 (mkCfg _ v log) =
    (None, mkCfg _ (Verisure.mk _ u (Verisure.giid v) cl') (log ++ reqs)%list).
Proof.
  intros Ha. cbn [tryURLs_range]. run_M.
  by rewrite (authenticate_attempt (Verisure.with_baseURL u v) log cl' reqs _ Ha).
Qed.

(** A prefix of rejected endpoints is walked through; the field [giid]
    is not touched on the way. *)
Lemma tryURLs_range_rejected pre cl cl1 reqs :
  all_rejected username password pre cl cl1 reqs ->
  forall (v : Verisure.t) log err0 u post,
    Verisure.client v = cl ->
    exists (v1 : Verisure.t) err1,
      Verisure.client v1 = cl1 /\
      Verisure.giid v1 = Verisure.giid v /\
      tryURLs_range (pre ++ u :: post) username password err0 (mkCfg _ v log) =
        tryURLs_range (u :: post) username password err1
          (mkCfg _ v1 (log ++ reqs)%list).
Proof.
  induction 1 as [cl | u0 us cl cl1 cl2 reqs1 reqs2 err Ha _ IH];
    intros v log err0 u post Hcl.
  - exists v, err0. by rewrite app_nil_r.
  - subst cl. cbn [app].
    rewrite (tryURLs_range_failed _ _ _ _ _ _ _ _ Ha).
    destruct (IH (Verisure.mk _ u0 (Verisure.giid v) cl1) (log ++ reqs1)%list
                 (Some err) u post eq_refl) as (v1 & err1 & Hc & Hg & Heq).
    exists v1, err1. split; [done |]. split; [done |].
    by rewrite Heq, app_assoc.
Qed.

Lemma all_non200_rejected urls cl cl' :
  all_non200 username password urls cl cl' ->
  exists reqs,
    all_rejected username password urls cl cl' reqs /\
    reqs = map (fun u => authRequest u username password) urls.
Proof.
  induction 1 as [cl | u us cl cl1 cl2 res Hu HD Hs _ (reqs & IH & ->)].
  - exists []. split; [constructor | reflexivity].
  - eexists. split; [| reflexivity].
    eapply (all_rejected_cons _ _ u us cl cl1 cl2 [_]);
      [by eapply attempt_status | exact IH].
Qed.

End Failover.

(** ** Login *)

Section LoginFacts.
Context `{Platform}.
Variables username password : string.

Lemma all_rejected_requests urls cl cl' reqs :
  all_rejected username password urls cl cl' reqs ->
  reqs = auth_requests username password urls.
Proof.
  unfold auth_requests.
  induction 1 as [cl | u us cl cl1 cl2 reqs1 reqs2 err Ha _ IH]; [reflexivity |].
  subst reqs2.
  inversion Ha as [e Hu | c e Hu HD | c res Hu HD Hs |]; subst.
  - rewrite filter_cons_False; [reflexivity | congruence].
  - by rewrite filter_cons_True.
  - by rewrite filter_cons_True.
Qed.

Lemma all_rejected_snoc pre u cl cl1 cl2 reqs reqs_u err :
  all_rejected username password pre cl cl1 reqs ->
  attempt username password u cl1 cl2 reqs_u (Some err) ->
  all_rejected username password (pre ++ [u]) cl cl2 (reqs ++ reqs_u).
Proof.
  intros Hpre Hu.
  induction Hpre as [cl | u0 us cl c1 c2 r1 r2 e Ha _ IH]; cbn [app].
  - rewrite <- (app_nil_r reqs_u).
    eapply all_rejected_cons; [exact Hu | constructor].
  - rewrite <- app_assoc.
    eapply all_rejected_cons; [exact Ha | by apply IH].
Qed.

(** A non-empty list of rejected endpoints ends with a failed attempt. *)
Lemma all_rejected_last urls cl cl' reqs :
  all_rejected username password urls cl cl' reqs ->
  urls <> [] ->
  exists pre u cl1 reqs1 reqs2 err,
    urls = (pre ++ [u])%list /\
    all_rejected username password pre cl cl1 reqs1 /\
    attempt username password u cl1 cl' reqs2 (Some err) /\
    reqs = (reqs1 ++ reqs2)%list.
Proof.
  induction 1 as [cl | u us cl cl1 cl2 reqs1 reqs2 err Ha Hrest IH]; [done |].
  intros _. destruct us as [| u' us'].
  - inversion Hrest; subst.
    exists [], u, cl, [], reqs1, err.
    rewrite app_nil_r. repeat split; [constructor | exact Ha].
  - destruct IH as (pre & ul & c1 & r1 & r2 & e & Hurls & Hpre & Hlast & Hreqs);
      [done |].
    exists (u :: pre), ul, c1, (reqs1 ++ r1)%list, r2, e.
    rewrite Hurls, Hreqs, app_assoc.
    repeat split; [| exact Hlast].
    by eapply all_rejected_cons.
Qed.

(** The search leaves [baseURL] and [giid] alone and issues at most its
    own request. *)
Lemma installation_frame c :
  let c' := (installation username c).2 in
  Verisure.baseURL (self c') = Verisure.baseURL (self c) /\
  Verisure.giid (self c') = Verisure.giid (self c) /\
  (issued c' = issued c \/
   issued c' =
     (issued c ++ [searchRequest (Verisure.baseURL (self c)) username])%list).
Proof.
  unfold installation. run_M.
  unfold newRequest, http_NewRequest.
  destruct (url_Parse _); cbn [snd self issued]; [tauto |].
  change (Header_update _ (Header_update _ _))
    with (searchRequest (Verisure.baseURL (self c)) username).
  destruct (Do _ _) as [cl [res | err]]; [| cbn; tauto].
  destruct (bool_decide _); cbn; tauto.
Qed.

Lemma authenticate_giid c :
  Verisure.giid (self (authenticate username password c).2) =
  Verisure.giid (self c).
Proof.
  unfold authenticate. run_M.
  destruct (newRequest _ _ _); [| reflexivity].
  destruct (Do _ _) as [cl [res | err]]; [| reflexivity].
  by destruct (bool_decide _).
Qed.

Lemma tryURLs_range_giid urls : forall err0 c,
  Verisure.giid (self (tryURLs_range urls username password err0 c).2) =
  Verisure.giid (self c).
Proof.
  induction urls as [| u urls IH]; intros err0 c; [reflexivity |].
  cbn [tryURLs_range]. run_M.
  pose proof (authenticate_giid
                (mkCfg _ (Verisure.with_baseURL u (self c)) (issued c))) as Hg.
  destruct (authenticate _ _ _) as [[e |] c1]; cbn [snd] in *.
  - by rewrite IH.
  - exact Hg.
Qed.

(** Rejection everywhere: [Login] stops after [tryURLs], with the last
    endpoint's error, the last endpoint in [baseURL] and [giid] as it
    was. *)
Lemma Login_rejected pre u (v : Verisure.t) log cl1 reqs cl2 reqs_u err :
  all_rejected username password pre (Verisure.client v) cl1 reqs ->
  attempt username password u cl1 cl2 reqs_u (Some err) ->
  Login (pre ++ [u]) username password (mkCfg _ v log) =
    (Some err,
     mkCfg _ (Verisure.mk _ u (Verisure.giid v) cl2) (log ++ reqs ++ reqs_u)%list).
Proof.
  intros Hpre Hu. unfold Login, tryURLs. run_M.
  destruct (tryURLs_range_rejected _ _ _ _ _ _ Hpre v log None u [] eq_refl)
    as (v1 & err1 & Hc & Hg & ->).
  subst cl1.
  rewrite (tryURLs_range_failed _ _ _ _ _ _ _ _ _ _ Hu).
  cbn [tryURLs_range]. run_M. by rewrite Hg, app_assoc.
Qed.

End LoginFacts.

(** ** Properties of the session manager *)

(** C1: whatever the list of candidate endpoints and however the
    endpoints answer, if the endpoints before [u] are all rejected and
    [u] answers the authentication with status 200, then [Login] has
    issued the authentication requests of the earlier endpoints in list
    order, then the one for [u], [u] is the client's [baseURL], and the
    only request issued after that is at most the installation search at
    [u]: no endpoint listed after [u] is contacted. *)
Theorem Login_first_success `{Platform} username password pre u post
    (v : Verisure.t) log cl1 reqs cl2 res :
  all_rejected username password pre (Verisure.client v) cl1 reqs ->
  url_Parse (u +:+ "/cookie") = None ->
  Do cl1 (authRequest u username password) = (cl2, Ok res) ->
  StatusCode res = 200 ->
  exists err c' tail,
    Login (pre ++ u :: post) username password (mkCfg _ v log) = (err, c') /\
    Verisure.baseURL (self c') = u /\
    issued c' =
      (log ++ auth_requests username password pre
           ++ [authRequest u username password] ++ tail)%list /\
    (tail = [] \/ tail = [searchRequest u username]).
Proof.
  intros Hpre Hu HD Hs.
  pose proof (attempt_accepted username password u cl1 cl2 res Hu HD Hs) as Ha.
  destruct (tryURLs_range_rejected _ _ _ _ _ _ Hpre v log None u post eq_refl)
    as (v1 & err1 & Hc & Hg & Hrun).
  subst cl1.
  rewrite (tryURLs_range_accepted _ _ _ _ _ _ _ _ _ Ha) in Hrun.
  rewrite <- (all_rejected_requests _ _ _ _ _ _ Hpre).
  unfold Login, tryURLs. run_M. rewrite Hrun.
  set (c1 := mkCfg _ _ _).
  destruct (installation_frame username c1) as (Hb & _ & Hi).
  destruct (installation username c1) as [[g e] c2]. cbn [snd] in Hb, Hi.
  assert (Hshape : exists tail,
             issued c2 = (log ++ reqs ++ [authRequest u username password] ++ tail)%list
             /\ (tail = [] \/ tail = [searchRequest u username])).
  { destruct Hi as [-> | ->]; subst c1; cbn [issued self Verisure.baseURL].
    - exists []. rewrite app_nil_r, <- app_assoc. auto.
    - exists [searchRequest u username]. rewrite <- !app_assoc. auto. }
  destruct Hshape as (tail & Hissued & Htail).
  assert (Hb' : Verisure.baseURL (self c2) = u) by (rewrite Hb; reflexivity).
  destruct e as [e |].
  - by exists (Some e), c2, tail.
  - eexists None, _, tail. split; [reflexivity |]. by cbn.
Qed.

(** The end-to-end scenario: the first endpoint answers 401, the second
    200. *)
Lemma Login_first_success_witness :
  exists err c' tail,
    @Login Scripted.second_accepts
      (["https://e-api01.verisure.com/xbn/2"]
         ++ "https://e-api02.verisure.com/xbn/2" :: [])
      "alice" "secret" (mkCfg _ New []) = (err, c') /\
    Verisure.baseURL (self c') = "https://e-api02.verisure.com/xbn/2" /\
    issued c' =
      ([] ++ @auth_requests Scripted.second_accepts "alice" "secret"
                ["https://e-api01.verisure.com/xbn/2"]
          ++ [authRequest "https://e-api02.verisure.com/xbn/2" "alice" "secret"]
          ++ tail)%list /\
    (tail = [] \/
     tail = [searchRequest "https://e-api02.verisure.com/xbn/2" "alice"]).
Proof.
  eapply (@Login_first_success Scripted.second_accepts "alice" "secret"
            ["https://e-api01.verisure.com/xbn/2"]
            "https://e-api02.verisure.com/xbn/2" [] New []).
  - eapply (all_rejected_cons _ _ _ [] _ _ _ [_] []).
    + eapply attempt_status; [reflexivity | reflexivity | discriminate].
    + constructor.
  - reflexivity.
  - reflexivity.
  - reflexivity.
Defined.

(** C2: for a search body that reads as a non-empty array of objects,
    [giid] returns the string the first object gives to its key [giid],
    whatever the other elements and the other keys are, and fails with
    "no giid found" when the first object has no such key or gives it a
    value that is not a string. *)
Theorem giid_first_record `{Platform} rc members rest :
  json_read rc = Ok (JArray (JObject members :: rest)) ->
  Forall is_object rest ->
  giid rc =
    match member "giid" members with
    | Some (JString s) => (s, None)
    | Some _ | None => ("", Some (Errorf "no giid found"))
    end.
Proof.
  intros Hread Hrest.
  destruct (decode_maps_objects rest Hrest) as [ms Hms].
  rewrite <- store_members_lookup.
  apply (giid_of_result rc (store_members members) ms).
  unfold Decode_maps. rewrite Hread.
  cbn [decode_maps decode_map]. by rewrite Hms.
Qed.

(** The body with two installations: the first one's identifier. *)
Lemma giid_first_record_witness :
  @giid Scripted.one_ok Scripted.two_installations = ("ABC123", None).
Proof.
  apply (@giid_first_record Scripted.one_ok Scripted.two_installations
           [("giid", JString "ABC123"); ("other", JNumber "1")]
           [JObject [("giid", JString "ZZZ999")]]).
  - reflexivity.
  - repeat constructor.
Defined.

(** C3, the claim as stated fails: with both endpoints answering 401 on a
    new client, [Login] returns the error of the last endpoint, yet
    [baseURL] is no longer what it was before the call. *)
Lemma Login_rejected_baseURL_changes :
  let c := mkCfg Scripted.refused New [] in
  let r := @Login Scripted.refused apiURLs "alice" "secret" c in
  r.1 = Some "login: 401 401 Unauthorized" /\
  Verisure.baseURL (self r.2) = "https://e-api02.verisure.com/xbn/2" /\
  Verisure.baseURL (self r.2) <> Verisure.baseURL (self c).
Proof. vm_compute. repeat split. discriminate. Qed.

(** C3, amended: when the endpoints before the last one are rejected and
    the attempt at the last one fails with [err], [Login] returns [err]
    and leaves the last endpoint in [baseURL]; it has issued the
    authentication requests only and has not touched [giid]. *)
Theorem Login_all_rejected `{Platform} username password pre u
    (v : Verisure.t) log cl1 reqs cl2 reqs_u err :
  all_rejected username password pre (Verisure.client v) cl1 reqs ->
  attempt username password u cl1 cl2 reqs_u (Some err) ->
  let r := Login (pre ++ [u]) username password (mkCfg _ v log) in
  r.1 = Some err /\
  Verisure.baseURL (self r.2) = u /\
  Verisure.giid (self r.2) = Verisure.giid v /\
  issued r.2 = (log ++ auth_requests username password (pre ++ [u]))%list.
Proof.
  intros Hpre Hu r. subst r.
  rewrite (Login_rejected _ _ _ _ _ _ _ _ _ _ _ Hpre Hu). cbn.
  repeat split.
  by rewrite (all_rejected_requests _ _ _ _ _ _
                (all_rejected_snoc _ _ _ _ _ _ _ _ _ _ Hpre Hu)).
Qed.

Lemma Login_all_rejected_witness :
  let r := @Login Scripted.refused
             (["https://e-api01.verisure.com/xbn/2"]
                ++ ["https://e-api02.verisure.com/xbn/2"])
             "alice" "secret" (mkCfg _ New []) in
  r.1 = Some (Errorf_d_s "login: " 401 "401 Unauthorized") /\
  Verisure.baseURL (self r.2) = "https://e-api02.verisure.com/xbn/2" /\
  Verisure.giid (self r.2) = Verisure.giid (@New Scripted.refused) /\
  issued r.2 =
    ([] ++ @auth_requests Scripted.refused "alice" "secret"
             (["https://e-api01.verisure.com/xbn/2"]
                ++ ["https://e-api02.verisure.com/xbn/2"]))%list.
Proof.
  eapply (@Login_all_rejected Scripted.refused "alice" "secret"
            ["https://e-api01.verisure.com/xbn/2"]
            "https://e-api02.verisure.com/xbn/2" New []).
  - eapply (all_rejected_cons _ _ _ [] _ _ _ [_] []).
    + eapply attempt_status; [reflexivity | reflexivity | discriminate].
    + constructor.
  - eapply (attempt_status "alice" "secret" _ _ _ (mkResponse 401 "401 Unauthorized" ""));
      [reflexivity | reflexivity | discriminate].
Defined.

(** C4: when authentication has succeeded and the search answers 200
    with the empty array as body, [giid] fails with "no installations
    found", [Login] returns that error, and the client's [giid] is what it
    was before [Login]. *)
Theorem Login_no_installations `{Platform} urls username password c c1 cl2 res :
  tryURLs urls username password c = (None, c1) ->
  url_Parse (Verisure.baseURL (self c1) +:+ "/installation/search?email="
               +:+ username) = None ->
  Do (Verisure.client (self c1))
     (searchRequest (Verisure.baseURL (self c1)) username) = (cl2, Ok res) ->
  StatusCode res = 200 ->
  json_read (Body res) = Ok (JArray []) ->
  let r := Login urls username password c in
  giid (Body res) = ("", Some (Errorf "no installations found")) /\
  r.1 = Some (Errorf "no installations found") /\
  Verisure.giid (self r.2) = Verisure.giid (self c).
Proof.
  intros Htry Hu HD Hs Hread r.
  assert (Hg : giid (Body res) = ("", Some (Errorf "no installations found"))).
  { apply giid_no_installations. unfold Decode_maps. by rewrite Hread. }
  split; [exact Hg |].
  assert (Hkeep : Verisure.giid (self c1) = Verisure.giid (self c)).
  { pose proof (tryURLs_range_giid username password urls None c) as Hk.
    unfold tryURLs in Htry. by rewrite Htry in Hk. }
  subst r. unfold Login. run_M. rewrite Htry.
  unfold installation. run_M.
  rewrite (newRequest_built _ _ _ Hu).
  change (mkRequest MethodGet _ json_headers None None)
    with (searchRequest (Verisure.baseURL (self c1)) username).
  rewrite HD. rewrite bool_decide_eq_false_2 by (intros Hne; by apply Hne).
  rewrite Hg. cbn. by rewrite Hkeep.
Qed.

Lemma Login_no_installations_witness :
  let r := @Login Scripted.no_installation apiURLs "alice" "secret"
             (mkCfg _ New []) in
  @giid Scripted.no_installation "[]" = ("", Some (Errorf "no installations found")) /\
  r.1 = Some (Errorf "no installations found") /\
  Verisure.giid (self r.2) = Verisure.giid (@New Scripted.no_installation).
Proof.
  eapply (@Login_no_installations Scripted.no_installation apiURLs "alice" "secret"
            (mkCfg _ New []) _ _ (mkResponse 200 "200 OK" "[]")).
  - reflexivity.
  - reflexivity.
  - reflexivity.
  - reflexivity.
  - reflexivity.
Defined.

(** C5: when every endpoint of a non-empty list answers the
    authentication with a status other than 200, [Login] returns an error
    and the requests it has issued are the authentication requests, one
    per endpoint in order; none of them goes to the installation-search
    route. *)
Theorem Login_no_search_after_rejection `{Platform} urls username password
    (v : Verisure.t) log cl' :
  urls <> [] ->
  all_non200 username password urls (Verisure.client v) cl' ->
  let r := Login urls username password (mkCfg _ v log) in
  let new := map (fun u => authRequest u username password) urls in
  is_Some r.1 /\
  issued r.2 = (log ++ new)%list /\
  Forall (fun q => ~ is_search_request q) new.
Proof.
  intros Hne Hall r new.
  destruct (all_non200_rejected _ _ _ _ _ Hall) as (reqs & Hrej & Hreqs).
  destruct (all_rejected_last _ _ _ _ _ _ Hrej Hne)
    as (pre & u & cl1 & reqs1 & reqs2 & err & -> & Hpre & Hu & Hsplit).
  subst r. rewrite (Login_rejected _ _ _ _ _ _ _ _ _ _ _ Hpre Hu).
  cbn [fst snd issued]. split; [by eexists |]. split.
  - subst new. by rewrite <- Hreqs, Hsplit.
  - subst new. apply Forall_forall. intros q Hq.
    apply list_elem_of_fmap in Hq as (u0 & -> & _).
    intros [Hm _]. discriminate Hm.
Qed.

Lemma Login_no_search_after_rejection_witness :
  let r := @Login Scripted.refused apiURLs "alice" "secret" (mkCfg _ New []) in
  let new := map (fun u => authRequest u "alice" "secret") apiURLs in
  is_Some r.1 /\
  issued r.2 = ([] ++ new)%list /\
  Forall (fun q => ~ is_search_request q) new.
Proof.
  eapply (@Login_no_search_after_rejection Scripted.refused apiURLs
            "alice" "secret" New []).
  - discriminate.
  - eapply all_non200_cons; [reflexivity | reflexivity | discriminate |].
    eapply all_non200_cons; [reflexivity | reflexivity | discriminate |].
    constructor.
Defined.

(** C10: whenever [Login] returns an error, the client's [giid] is what
    it was before the call. *)
Theorem Login_error_keeps_giid `{Platform} urls username password c err :
  (Login urls username password c).1 = Some err ->
  Verisure.giid (self (Login urls username password c).2) = Verisure.giid (self c).
Proof.
  unfold Login, tryURLs. run_M.
  pose proof (tryURLs_range_giid username password urls None c) as Htry.
  destruct (tryURLs_range _ _ _ _ _) as [[e |] c1]; cbn [snd] in Htry.
  - intros _. exact Htry.
  - pose proof (installation_frame username c1) as (_ & Hinst & _).
    destruct (installation username c1) as [[g [e |]] c2]; cbn [fst snd] in *.
    + intros _. by rewrite Hinst.
    + discriminate.
Qed.

(** An identifier given to [NewWithGIID] survives a [Login] that both
    endpoints refuse. *)
Lemma Login_error_keeps_giid_witness :
  Verisure.giid
    (self (@Login Scripted.refused apiURLs "alice" "secret"
             (mkCfg _ (NewWithGIID "ABC123") [])).2) =
  Verisure.giid (self (mkCfg Scripted.refused (NewWithGIID "ABC123") [])).
Proof.
  apply (@Login_error_keeps_giid Scripted.refused apiURLs "alice" "secret"
           (mkCfg _ (NewWithGIID "ABC123") []) "login: 401 401 Unauthorized").
  reflexivity.
Defined.

(** ** Properties of the resource client *)

(** C8: [Logout] returns with [baseURL] and [giid] as they were before
    the call, whether it returns an error or not. *)
Theorem Logout_keeps_session_fields `{Platform} c :
  Verisure.baseURL (self (Logout c).2) = Verisure.baseURL (self c) /\
  Verisure.giid (self (Logout c).2) = Verisure.giid (self c).
Proof.
  unfold Logout. run_M.
  destruct (http_NewRequest _ _ _); [| done].
  destruct (Do _ _) as [cl [res | e]]; [| done].
  by destruct (bool_decide _).
Qed.

(** C9: when the serialization of the updates fails, [UpdateSmartplug]
    returns the serialization error with the client and the issued
    requests as they were, so no request has been issued; and when it
    does issue a request, the serialization has succeeded and is the
    request's body. *)
Theorem UpdateSmartplug_marshal_first `{Platform} updates c :
  (forall err,
     json_Marshal updates = Err err ->
     UpdateSmartplug updates c = (Some err, c)) /\
  (issued (UpdateSmartplug updates c).2 <> issued c ->
   exists bs q,
     json_Marshal updates = Ok bs /\ body q = Some bs /\
     issued (UpdateSmartplug updates c).2 = (issued c ++ [q])%list).
Proof.
  unfold UpdateSmartplug. destruct (json_Marshal updates) as [bs | e].
  - split; [discriminate |].
    run_M. unfold newRequest, http_NewRequest.
    destruct (url_Parse _); [done |]. intros _.
    cbn [self issued].
    destruct (Do _ _) as [cl [res | e]];
      [destruct (bool_decide _) |]; eexists bs, _; by repeat split.
  - split; [by intros err [= ->] | done].
Qed.

(** The platform's encoder is the one thing that can make the first
    branch run; here it is a double that refuses every list. *)
Lemma UpdateSmartplug_marshal_first_witness :
  @UpdateSmartplug Scripted.one_ok [mkSmartPlugState "X" true]
     (mkCfg _ (Verisure.mk _ "https://e-api01.verisure.com/xbn/2" "ABC123" fresh_Client) [])
  = (Some "json: unsupported value",
     mkCfg _ (Verisure.mk _ "https://e-api01.verisure.com/xbn/2" "ABC123" fresh_Client) []).
Proof.
  apply (proj1 (@UpdateSmartplug_marshal_first Scripted.one_ok
                  [mkSmartPlugState "X" true] _)).
  reflexivity.
Defined.

(** C7 fails for [Logout]: the request it issues, built by
    [http.NewRequest] and not by [newRequest], has no header at all. *)
Theorem Logout_request_without_headers `{Platform} c :
  url_Parse (Verisure.baseURL (self c) +:+ "/cookie") = None ->
  let q := mkRequest MethodDelete (Verisure.baseURL (self c) +:+ "/cookie")
                     ∅ None None in
  issued (Logout c).2 = (issued c ++ [q])%list /\
  Header_Get "Accept" (Header q) = "" /\
  Header_Get "Content-Type" (Header q) = "" /\
  ~ has_json_headers q.
Proof.
  intros Hu q. unfold Logout. run_M. unfold http_NewRequest. rewrite Hu.
  cbn [self issued]. repeat split.
  - destruct (Do _ _) as [cl [res | e]]; [| done]. by destruct (bool_decide _).
  - intros [Ha _]. discriminate Ha.
Qed.

Lemma Logout_request_without_headers_witness :
  let c := mkCfg Scripted.one_ok
             (Verisure.mk _ "https://e-api01.verisure.com/xbn/2" "ABC123" fresh_Client)
             [] in
  let q := mkRequest MethodDelete "https://e-api01.verisure.com/xbn/2/cookie"
                     ∅ None None in
  issued (Logout c).2 = ([] ++ [q])%list /\
  Header_Get "Accept" (Header q) = "" /\
  Header_Get "Content-Type" (Header q) = "" /\
  ~ has_json_headers q.
Proof.
  apply (@Logout_request_without_headers Scripted.one_ok
           (mkCfg _ (Verisure.mk _ "https://e-api01.verisure.com/xbn/2" "ABC123"
                                 fresh_Client) [])).
  reflexivity.
Defined.

(** The other four operations build their request with [newRequest]; it
    carries both headers. *)
Lemma authRequest_headers endpoint username password :
  has_json_headers (authRequest endpoint username password).
Proof. split; [apply json_headers_Accept | apply json_headers_Content_Type]. Qed.

Lemma searchRequest_headers endpoint username :
  has_json_headers (searchRequest endpoint username).
Proof. split; [apply json_headers_Accept | apply json_headers_Content_Type]. Qed.

(** C6 fails in the earlier revision: on a client fresh from [New],
    [Overview] panics on [v.installations[0]] before any request is built,
    and so does [UpdateSmartplug] once the updates are serialized. *)
Theorem Legacy_Overview_panics_on_New `{Platform} log :
  Legacy.Overview Legacy.New log =
    Legacy.Panics "runtime error: index out of range [0] with length 0" /\
  forall updates,
    Legacy.UpdateSmartplug updates Legacy.New log =
      match json_Marshal updates with
      | Ok _ => Legacy.Panics "runtime error: index out of range [0] with length 0"
      | Err err => Legacy.Returns (Some err, (Legacy.New, log))
      end.
Proof.
  split; [reflexivity |].
  intros updates. unfold Legacy.UpdateSmartplug.
  by destruct (json_Marshal updates).
Qed.

(** In the later revision the resource calls read [baseURL] and [giid]
    as they are and hand their request to the client, whatever the state
    of the session. *)
Lemma Overview_issues_request `{Platform} c :
  let url := Verisure.baseURL (self c) +:+ "/installation/"
               +:+ Verisure.giid (self c) +:+ "/overview" in
  url_Parse url = None ->
  issued (Overview c).2 = (issued c ++ [mkRequest MethodGet url json_headers None None])%list.
Proof.
  intros url Hu. unfold Overview. run_M.
  fold url. rewrite (newRequest_built _ _ _ Hu). cbn [self issued].
  destruct (Do _ _) as [cl [res | e]]; [| done].
  destruct (bool_decide _); [done |].
  by destruct (json_Decode_Overview _) as [o [e |]].
Qed.

(** ** Further properties: requests and attempts *)

Section MoreFacts.
Context `{Platform}.
Variables username password : string.

Lemma json_headers_map :
  json_headers =
    <["Content-Type" := [mediaType]]> (<["Accept" := [mediaType]]> ∅).
Proof.
  unfold json_headers, Header_Add.
  rewrite lookup_empty. cbn [default app].
  rewrite lookup_insert_ne by discriminate.
  by rewrite lookup_empty.
Qed.

(** Every attempt has an outcome. *)
Lemma attempt_total endpoint cl :
  exists cl' reqs r, attempt username password endpoint cl cl' reqs r.
Proof.
  destruct (url_Parse (endpoint +:+ "/cookie")) as [err |] eqn:Hu.
  - exists cl, [], (Some err). by constructor.
  - destruct (Do cl (authRequest endpoint username password))
      as [cl' [res | err]] eqn:HD.
    + destruct (decide (StatusCode res = 200)) as [Hs | Hs].
      * exists cl', [authRequest endpoint username password], None.
        by eapply attempt_accepted.
      * eexists cl', [authRequest endpoint username password], _.
        by eapply attempt_status.
    + eexists cl', [authRequest endpoint username password], _.
      by eapply attempt_transport.
Qed.

Lemma attempt_requests endpoint cl cl' reqs r :
  attempt username password endpoint cl cl' reqs r ->
  reqs = auth_requests username password [endpoint].
Proof.
  unfold auth_requests.
  inversion 1; subst.
  - rewrite filter_cons_False; [reflexivity | congruence].
  - by rewrite filter_cons_True.
  - by rewrite filter_cons_True.
  - by rewrite filter_cons_True.
Qed.

Lemma auth_requests_app urls1 urls2 :
  auth_requests username password (urls1 ++ urls2) =
    (auth_requests username password urls1
       ++ auth_requests username password urls2)%list.
Proof. unfold auth_requests. by rewrite filter_app, map_app. Qed.

Lemma auth_requests_length urls :
  (length (auth_requests username password urls) <= length urls)%nat.
Proof.
  unfold auth_requests. rewrite length_map. apply length_filter.
Qed.

(** The loop of [tryURLs] attempts a prefix of the list: [k] endpoints,
    the last of which is left in [baseURL]; it stops before the end only
    on a success. *)
Lemma tryURLs_range_prefix urls : forall err0 c,
  let r := tryURLs_range urls username password err0 c in
  exists k,
    (k <= length urls)%nat /\
    issued r.2 =
      (issued c ++ auth_requests username password (take k urls))%list /\
    (k = 0%nat -> urls = [] /\ r = (err0, c)) /\
    ((0 < k)%nat -> urls !! (k - 1)%nat = Some (Verisure.baseURL (self r.2))) /\
    ((0 < k)%nat -> is_Some r.1 -> k = length urls) /\
    ((k < length urls)%nat -> r.1 = None).
Proof.
  induction urls as [| u urls IH]; intros err0 c r.
  - exists 0%nat. subst r. cbn. rewrite app_nil_r.
    repeat split; auto; lia.
  - destruct c as [v log].
    destruct (attempt_total u (Verisure.client v)) as (cl' & reqs & [e |] & Ha).
    + subst r. rewrite (tryURLs_range_failed _ _ _ _ _ _ _ _ _ _ Ha).
      set (c1 := mkCfg _ _ _).
      destruct (IH (Some e) c1) as (k & Hk & Hi & H0 & Hb & Hf & Hs).
      exists (S k). cbn [length take]. split; [lia |]. split; [| split; [| split; [| split]]].
      * rewrite Hi. subst c1. cbn [issued].
        change (u :: take k urls) with ([u] ++ take k urls)%list.
        rewrite auth_requests_app, <- (attempt_requests _ _ _ _ _ Ha).
        by rewrite app_assoc.
      * lia.
      * intros _. destruct k as [| k'].
        -- destruct (H0 eq_refl) as [-> Hr]. rewrite Hr. reflexivity.
        -- replace (S (S k') - 1)%nat with (S (S k' - 1)) by lia.
           cbn [lookup list_lookup]. apply Hb. lia.
      * intros _ Hsome. destruct k as [| k'].
        -- by destruct (H0 eq_refl) as [-> _].
        -- f_equal. apply Hf; [lia | exact Hsome].
      * intros Hlt. destruct k as [| k'].
        -- destruct (H0 eq_refl) as [-> _]. cbn in Hlt. lia.
        -- apply Hs. lia.
    + subst r. rewrite (tryURLs_range_accepted _ _ _ _ _ _ _ _ _ Ha).
      exists 1%nat. cbn [length take fst snd issued self].
      split; [lia |]. split; [| split; [| split; [| split]]].
      * by rewrite take_0, <- (attempt_requests _ _ _ _ _ Ha).
      * discriminate.
      * reflexivity.
      * by intros _ [? ?].
      * reflexivity.
Qed.

End MoreFacts.

Section MoreLogin.
Context `{Platform}.
Variables username password : string.

(** What [Login] adds to [tryURLs]: at most the search, at the endpoint
    [tryURLs] left in [baseURL], and only after a success of [tryURLs]. *)
Lemma Login_after_tryURLs urls c :
  let t := tryURLs urls username password c in
  let r := Login urls username password c in
  Verisure.baseURL (self r.2) = Verisure.baseURL (self t.2) /\
  (is_Some t.1 -> r = t) /\
  (issued r.2 = issued t.2 \/
   t.1 = None /\
   issued r.2 =
     (issued t.2 ++ [searchRequest (Verisure.baseURL (self t.2)) username])%list).
Proof.
  intros t r. subst t r. unfold Login. run_M.
  destruct (tryURLs urls username password c) as [[e |] c1]; cbn [fst snd].
  - split; [done |]. split; [done | by left].
  - destruct (installation_frame username c1) as (Hb & _ & Hi).
    destruct (installation username c1) as [[g [e |]] c2]; cbn [fst snd] in *.
    + split; [done |]. split; [by intros [? ?] |]. destruct Hi; auto.
    + split; [done |]. split; [by intros [? ?] |]. destruct Hi; auto.
Qed.

End MoreLogin.

(** X1: [newRequest] fails exactly when [http.NewRequest] refuses the
    URL, with that error; otherwise its request has the method, URL and
    body it was given, no credentials, and exactly two headers, [Accept]
    and [Content-Type], each with the single value [application/json]. *)
Theorem newRequest_exact `{Platform} method url b :
  newRequest method url b =
    match url_Parse url with
    | Some err => Err err
    | None =>
        Ok (mkRequest method url
              (<["Content-Type" := ["application/json"]]>
                 (<["Accept" := ["application/json"]]> ∅))
              None b)
    end.
Proof.
  destruct (url_Parse url) as [err |] eqn:Hu.
  - by apply newRequest_unbuilt.
  - rewrite (newRequest_built _ _ _ Hu). by rewrite json_headers_map.
Qed.

(** X2: [authenticate] returns [nil] exactly when its request could be
    built and the exchange gave a response with status 200; the request
    is the [POST] on [{baseURL}/cookie] with the credentials
    [CPE/username : password]. *)
Theorem authenticate_nil_iff `{Platform} username password c :
  (authenticate username password c).1 = None <->
  url_Parse (Verisure.baseURL (self c) +:+ "/cookie") = None /\
  exists cl res,
    Do (Verisure.client (self c))
       (mkRequest "POST" (Verisure.baseURL (self c) +:+ "/cookie") json_headers
                  (Some ("CPE/" +:+ username, password)) None) = (cl, Ok res) /\
    StatusCode res = 200.
Proof.
  destruct c as [v log]. cbn [self].
  destruct (attempt_total username password (Verisure.baseURL v) (Verisure.client v))
    as (cl' & reqs & r & Ha).
  rewrite (authenticate_attempt _ _ _ _ _ _ _ Ha). cbn [fst].
  inversion Ha as [err Hu | cl'' err Hu HD | cl'' res Hu HD Hs | cl'' res Hu HD Hs];
    subst; unfold authRequest, MethodPost in *.
  - split; [discriminate | intros [Hu' _]; congruence].
  - split; [discriminate |]. intros (_ & cl & res & HD' & _). congruence.
  - split; [discriminate |]. intros (_ & cl & res' & HD' & Hs'). congruence.
  - split; [| done]. intros _. split; [done |]. by exists cl', res.
Qed.

(** X3: [tryURLs] attempts the endpoints of a prefix of the list, in
    order, issuing the authentication request of each one that has one
    and nothing else; the endpoint attempted last is left in [baseURL];
    it stops short of the end of the list only on a success, and returns
    an error only after the whole list. *)
Theorem tryURLs_attempts_prefix `{Platform} urls username password c :
  let r := tryURLs urls username password c in
  exists k,
    (k <= length urls)%nat /\
    issued r.2 =
      (issued c ++ auth_requests username password (take k urls))%list /\
    (urls <> [] ->
     (0 < k)%nat /\ urls !! (k - 1)%nat = Some (Verisure.baseURL (self r.2))) /\
    (is_Some r.1 -> k = length urls) /\
    ((k < length urls)%nat -> r.1 = None).
Proof.
  intros r. subst r. unfold tryURLs.
  destruct (tryURLs_range_prefix username password urls None c)
    as (k & Hk & Hi & H0 & Hb & Hf & Hs).
  exists k. split; [done |]. split; [done |].
  assert (Hpos : urls <> [] -> (0 < k)%nat).
  { intros Hne. destruct k; [| lia]. by destruct (H0 eq_refl). }
  split; [| split; [| done]].
  - intros Hne. split; [auto | apply Hb; auto].
  - intros Hsome. destruct k as [| k'].
    + destruct (H0 eq_refl) as [_ Hr]. rewrite Hr in Hsome. by destruct Hsome.
    + apply Hf; [lia | done].
Qed.

(** X4: over an empty list of endpoints [tryURLs] returns [nil] at once,
    so [Login] issues no authentication request and goes straight to the
    installation search at the [baseURL] the client already had. *)
Theorem Login_no_endpoints `{Platform} username password c :
  tryURLs [] username password c = (None, c) /\
  Verisure.baseURL (self (Login [] username password c).2)
    = Verisure.baseURL (self c) /\
  (url_Parse (Verisure.baseURL (self c) +:+ "/installation/search?email="
                +:+ username) = None ->
   issued (Login [] username password c).2 =
     (issued c ++ [searchRequest (Verisure.baseURL (self c)) username])%list).
Proof.
  split; [reflexivity |].
  unfold Login, tryURLs. cbn [tryURLs_range]. run_M.
  unfold installation. run_M. unfold newRequest, http_NewRequest.
  destruct (url_Parse _) as [err |]; [by split |].
  change (Header_update _ (Header_update _ _))
    with (searchRequest (Verisure.baseURL (self c)) username).
  cbn [self issued].
  destruct (Do _ _) as [cl [res | err]]; [| by split].
  destruct (bool_decide _); [by split |].
  destruct (giid (Body res)) as [g [e |]]; by split.
Qed.

(** X5: after [Login] over a non-empty list, whether it succeeded or
    not, [baseURL] is one of the endpoints of the list. *)
Theorem Login_baseURL_in_urls `{Platform} urls username password c :
  urls <> [] ->
  Verisure.baseURL (self (Login urls username password c).2) ∈ urls.
Proof.
  intros Hne.
  destruct (Login_after_tryURLs username password urls c) as (-> & _).
  unfold tryURLs.
  destruct (tryURLs_range_prefix username password urls None c)
    as (k & _ & _ & H0 & Hb & _).
  destruct k as [| k']; [by destruct (H0 eq_refl) |].
  eapply list_elem_of_lookup_2. apply Hb. lia.
Qed.

Lemma Login_baseURL_in_urls_witness :
  Verisure.baseURL
    (self (@Login Replay.search_refused apiURLs "alice" "secret"
             (mkCfg _ New [])).2) ∈ apiURLs.
Proof.
  apply (@Login_baseURL_in_urls Replay.search_refused apiURLs "alice" "secret").
  discriminate.
Defined.

(** ** Further properties: how many requests, and which *)

Section Budget.
Context `{Platform}.

Lemma extends_by_refl n c c' :
  issued c' = issued c -> extends_by n c c'.
Proof. intros Hi. exists []. rewrite app_nil_r. split; [done | cbn; lia]. Qed.

Lemma extends_by_one n c c' q :
  issued c' = (issued c ++ [q])%list -> (1 <= n)%nat -> extends_by n c c'.
Proof. intros Hi Hn. by exists [q]. Qed.

Lemma Logout_budget c : extends_by 1 c (Logout c).2.
Proof.
  unfold Logout. run_M. destruct (http_NewRequest _ _ _) as [q | e];
    [| by apply extends_by_refl].
  destruct (Do _ _) as [cl [res | e]]; [destruct (bool_decide _) |];
    by eapply extends_by_one.
Qed.

Lemma Overview_budget c : extends_by 1 c (Overview c).2.
Proof.
  unfold Overview. run_M. destruct (newRequest _ _ _) as [q | e];
    [| by apply extends_by_refl].
  destruct (Do _ _) as [cl [res | e]];
    [destruct (bool_decide _);
       [| destruct (json_Decode_Overview _) as [o [e |]]] |];
    by eapply extends_by_one.
Qed.

Lemma UpdateSmartplug_budget updates c :
  extends_by 1 c (UpdateSmartplug updates c).2.
Proof.
  unfold UpdateSmartplug. destruct (json_Marshal updates) as [bs | e];
    [| by apply extends_by_refl].
  run_M. destruct (newRequest _ _ _) as [q | e];
    [| by apply extends_by_refl].
  destruct (Do _ _) as [cl [res | e]]; [destruct (bool_decide _) |];
    by eapply extends_by_one.
Qed.

Lemma Login_budget urls username password c :
  extends_by (length urls + 1) c (Login urls username password c).2.
Proof.
  destruct (Login_after_tryURLs username password urls c) as (_ & _ & Hi).
  unfold tryURLs in Hi.
  destruct (tryURLs_range_prefix username password urls None c)
    as (k & Hk & Ht & _).
  pose proof (auth_requests_length username password (take k urls)) as Hlen.
  rewrite length_take in Hlen. unfold extends_by.
  destruct Hi as [Hi | [_ Hi]]; rewrite Hi, Ht.
  - eexists. split; [reflexivity | lia].
  - rewrite <- app_assoc. eexists. split; [reflexivity |].
    rewrite length_app. cbn [length]. lia.
Qed.

End Budget.

(** X6: no operation drops or rewrites a request already issued, and
    each issues a bounded number of new ones: [Logout], [Overview] and
    [UpdateSmartplug] at most one, [Login] at most one per endpoint of
    the list and one more for the search. *)
Theorem request_budget `{Platform} c :
  extends_by 1 c (Logout c).2 /\
  extends_by 1 c (Overview c).2 /\
  (forall updates, extends_by 1 c (UpdateSmartplug updates c).2) /\
  (forall urls username password,
     extends_by (length urls + 1) c (Login urls username password c).2).
Proof.
  split; [apply Logout_budget |]. split; [apply Overview_budget |].
  split; [intros; apply UpdateSmartplug_budget | intros; apply Login_budget].
Qed.

Section LoginRuns.
Context `{Platform}.
Variables username password : string.

(** The search on a configuration whose exchange answers 200. *)
Lemma installation_answered c cl res :
  url_Parse (Verisure.baseURL (self c) +:+ "/installation/search?email="
               +:+ username) = None ->
  Do (Verisure.client (self c))
     (searchRequest (Verisure.baseURL (self c)) username) = (cl, Ok res) ->
  installation username c =
    ((if bool_decide (StatusCode res ≠ StatusOK)
      then ("", Some (Errorf_d_s "installations: " (StatusCode res) (Status res)))
      else giid (Body res)),
     mkCfg _ (Verisure.with_client cl (self c))
           (issued c ++ [searchRequest (Verisure.baseURL (self c)) username])%list).
Proof.
  intros Hu HD. unfold installation. run_M.
  rewrite (newRequest_built _ _ _ Hu).
  change (mkRequest MethodGet _ json_headers None None)
    with (searchRequest (Verisure.baseURL (self c)) username).
  rewrite HD. by destruct (bool_decide _).
Qed.

(** [tryURLs] up to the first endpoint that accepts. *)
Lemma tryURLs_accepted pre u post (v : Verisure.t) log cl1 reqs cl2 res :
  all_rejected username password pre (Verisure.client v) cl1 reqs ->
  url_Parse (u +:+ "/cookie") = None ->
  Do cl1 (authRequest u username password) = (cl2, Ok res) ->
  StatusCode res = 200 ->
  tryURLs (pre ++ u :: post) username password (mkCfg _ v log) =
    (None,
     mkCfg _ (Verisure.mk _ u (Verisure.giid v) cl2)
           (log ++ reqs ++ [authRequest u username password])%list).
Proof.
  intros Hpre Hu HD Hs.
  pose proof (attempt_accepted username password u cl1 cl2 res Hu HD Hs) as Ha.
  destruct (tryURLs_range_rejected _ _ _ _ _ _ Hpre v log None u post eq_refl)
    as (v1 & err1 & Hc & Hg & Hrun).
  subst cl1. unfold tryURLs. rewrite Hrun.
  rewrite (tryURLs_range_accepted _ _ _ _ _ _ _ _ _ Ha).
  by rewrite Hg, app_assoc.
Qed.

End LoginRuns.

(** X7: the whole of a successful [Login].  The endpoints before [u]
    are rejected, [u] accepts, and the search at [u] answers 200 with an
    array of objects whose first one binds [giid] to the string [g]:
    [Login] returns [nil], with [u] in [baseURL] and [g] in [giid], having
    issued the authentication requests up to [u] and then the search at
    [u], and nothing after it. *)
Theorem Login_success `{Platform} username password pre u post
    (v : Verisure.t) log cl1 reqs cl2 res cl3 res' members rest g :
  all_rejected username password pre (Verisure.client v) cl1 reqs ->
  url_Parse (u +:+ "/cookie") = None ->
  Do cl1 (authRequest u username password) = (cl2, Ok res) ->
  StatusCode res = 200 ->
  url_Parse (u +:+ "/installation/search?email=" +:+ username) = None ->
  Do cl2 (searchRequest u username) = (cl3, Ok res') ->
  StatusCode res' = 200 ->
  json_read (Body res') = Ok (JArray (JObject members :: rest)) ->
  Forall is_object rest ->
  member "giid" members = Some (JString g) ->
  Login (pre ++ u :: post) username password (mkCfg _ v log) =
    (None,
     mkCfg _ (Verisure.mk _ u g cl3)
           (log ++ reqs
              ++ [authRequest u username password; searchRequest u username])%list).
Proof.
  intros Hpre Hu HD Hs Hu' HD' Hs' Hread Hrest Hg.
  unfold Login. run_M.
  rewrite (tryURLs_accepted _ _ _ _ _ _ _ _ _ _ _ Hpre Hu HD Hs).
  set (c1 := mkCfg _ (Verisure.mk _ u (Verisure.giid v) cl2) _).
  rewrite (installation_answered username c1 cl3 res' Hu' HD').
  rewrite bool_decide_eq_false_2 by (intros Hne; by apply Hne).
  destruct (decode_maps_objects rest Hrest) as [ms Hms].
  rewrite (giid_of_result (Body res') (store_members members) ms).
  - rewrite store_members_lookup, Hg. cbn.
    by rewrite <- !app_assoc.
  - unfold Decode_maps. rewrite Hread. cbn [decode_maps decode_map].
    by rewrite Hms.
Qed.

Lemma Login_success_witness :
  @Login Replay.session
    (["https://e-api01.verisure.com/xbn/2"]
       ++ "https://e-api02.verisure.com/xbn/2" :: [])
    "alice" "secret" (mkCfg _ New []) =
  (None,
   mkCfg _
     (Verisure.mk _ "https://e-api02.verisure.com/xbn/2" "ABC123"
        ([Scripted.status 200 "200 OK" "{'armstateCompatible': true}";
          Scripted.status 200 "200 OK" ""] : @Client Replay.session))
     ([] ++ [authRequest "https://e-api01.verisure.com/xbn/2" "alice" "secret"]
         ++ [authRequest "https://e-api02.verisure.com/xbn/2" "alice" "secret";
             searchRequest "https://e-api02.verisure.com/xbn/2" "alice"])%list).
Proof.
  eapply (@Login_success Replay.session "alice" "secret"
            ["https://e-api01.verisure.com/xbn/2"]
            "https://e-api02.verisure.com/xbn/2" [] New []).
  - eapply (all_rejected_cons _ _ _ [] _ _ _ [_] []).
    + eapply attempt_status; [reflexivity | reflexivity | discriminate].
    + constructor.
  - reflexivity.
  - reflexivity.
  - reflexivity.
  - reflexivity.
  - reflexivity.
  - reflexivity.
  - reflexivity.
  - repeat constructor.
  - reflexivity.
Defined.

(** X8: [Login] returns [nil] only if [tryURLs] returned [nil] and the
    search at the endpoint it left in [baseURL] was answered with status
    200 and a body from which [giid] extracts an identifier without
    error; that identifier is then the client's [giid], and the search is
    the last request issued. *)
Theorem Login_nil_only_after_search `{Platform} urls username password c :
  (Login urls username password c).1 = None ->
  let t := tryURLs urls username password c in
  let r := Login urls username password c in
  t.1 = None /\
  Verisure.baseURL (self r.2) = Verisure.baseURL (self t.2) /\
  issued r.2 =
    (issued t.2 ++ [searchRequest (Verisure.baseURL (self t.2)) username])%list /\
  exists cl res,
    Do (Verisure.client (self t.2))
       (searchRequest (Verisure.baseURL (self t.2)) username) = (cl, Ok res) /\
    StatusCode res = 200 /\
    giid (Body res) = (Verisure.giid (self r.2), None).
Proof.
  unfold Login. run_M.
  destruct (tryURLs urls username password c) as [[e |] c1]; cbn [fst snd];
    [discriminate |].
  unfold installation. run_M. unfold newRequest, http_NewRequest.
  destruct (url_Parse _) as [err |]; [discriminate |].
  change (Header_update _ (Header_update _ _))
    with (searchRequest (Verisure.baseURL (self c1)) username).
  cbn [self issued].
  destruct (Do _ _) as [cl [res | err]]; [| discriminate].
  destruct (bool_decide _) eqn:Hs; [discriminate |].
  apply bool_decide_eq_false_1 in Hs.
  destruct (giid (Body res)) as [g [e |]] eqn:Hg; [discriminate |].
  cbn. intros _. repeat split. exists cl, res.
  repeat split; [| done].
  destruct (decide (StatusCode res = 200)); [done | by destruct Hs].
Qed.

Lemma Login_nil_only_after_search_witness :
  let t := @tryURLs Replay.session apiURLs "alice" "secret" (mkCfg _ New []) in
  let r := @Login Replay.session apiURLs "alice" "secret" (mkCfg _ New []) in
  t.1 = None /\
  Verisure.baseURL (self r.2) = Verisure.baseURL (self t.2) /\
  issued r.2 =
    (issued t.2 ++ [searchRequest (Verisure.baseURL (self t.2)) "alice"])%list /\
  exists cl res,
    @Do Replay.session (Verisure.client (self t.2))
       (searchRequest (Verisure.baseURL (self t.2)) "alice") = (cl, Ok res) /\
    StatusCode res = 200 /\
    @giid Replay.session (Body res) = (Verisure.giid (self r.2), None).
Proof.
  apply (@Login_nil_only_after_search Replay.session apiURLs "alice" "secret"
           (mkCfg _ New [])).
  reflexivity.
Defined.

(** X9: authentication accepted at [u], search refused.  When the search
    at [u] is answered with a status other than 200, [Login] returns the
    error "installations: <code> <status>"; the client keeps [u] in
    [baseURL] and the [giid] it had, and the refused search is the last
    request issued. *)
Theorem Login_search_refused `{Platform} username password pre u post
    (v : Verisure.t) log cl1 reqs cl2 res cl3 res' :
  all_rejected username password pre (Verisure.client v) cl1 reqs ->
  url_Parse (u +:+ "/cookie") = None ->
  Do cl1 (authRequest u username password) = (cl2, Ok res) ->
  StatusCode res = 200 ->
  url_Parse (u +:+ "/installation/search?email=" +:+ username) = None ->
  Do cl2 (searchRequest u username) = (cl3, Ok res') ->
  StatusCode res' <> 200 ->
  Login (pre ++ u :: post) username password (mkCfg _ v log) =
    (Some ("installations: " +:+ pretty (StatusCode res') +:+ " " +:+ Status res'),
     mkCfg _ (Verisure.mk _ u (Verisure.giid v) cl3)
           (log ++ reqs
              ++ [authRequest u username password; searchRequest u username])%list).
Proof.
  intros Hpre Hu HD Hs Hu' HD' Hs'.
  unfold Login. run_M.
  rewrite (tryURLs_accepted _ _ _ _ _ _ _ _ _ _ _ Hpre Hu HD Hs).
  set (c1 := mkCfg _ (Verisure.mk _ u (Verisure.giid v) cl2) _).
  rewrite (installation_answered username c1 cl3 res' Hu' HD').
  rewrite bool_decide_eq_true_2 by exact Hs'.
  subst c1. cbn. by rewrite <- !app_assoc.
Qed.

Lemma Login_search_refused_witness :
  @Login Replay.search_refused
    ([] ++ "https://e-api01.verisure.com/xbn/2"
        :: ["https://e-api02.verisure.com/xbn/2"])
    "alice" "secret" (mkCfg _ (NewWithGIID "OLD000") []) =
  (Some ("installations: " +:+ pretty 403 +:+ " " +:+ "403 Forbidden"),
   mkCfg _
     (Verisure.mk _ "https://e-api01.verisure.com/xbn/2" "OLD000"
        ([] : @Client Replay.search_refused))
     ([] ++ []
         ++ [authRequest "https://e-api01.verisure.com/xbn/2" "alice" "secret";
             searchRequest "https://e-api01.verisure.com/xbn/2" "alice"])%list).
Proof.
  eapply (@Login_search_refused Replay.search_refused "alice" "secret" []
            "https://e-api01.verisure.com/xbn/2"
            ["https://e-api02.verisure.com/xbn/2"] (NewWithGIID "OLD000") []
            _ _ _ (mkResponse 200 "200 OK" "") _
            (mkResponse 403 "403 Forbidden" "")).
  - constructor.
  - reflexivity.
  - reflexivity.
  - reflexivity.
  - reflexivity.
  - reflexivity.
  - discriminate.
Defined.

(** ** Further properties: the decoding *)

Section MoreDecoding.
Context `{Platform}.

(** The array decodes exactly when each element is an object or [null]. *)
Lemma decode_maps_Ok_iff (js : list JSON) :
  (exists ms, decode_maps js = Ok ms) <->
  Forall (fun j => is_object j \/ j = JNull) js.
Proof.
  induction js as [| j js IH].
  - split; [constructor | by exists []].
  - cbn [decode_maps]. split.
    + intros [ms Hms]. constructor.
      * destruct j; cbn in *; auto; discriminate.
      * apply IH. destruct (decode_map j); [| discriminate].
        destruct (decode_maps js); [by eexists | discriminate].
    + intros Hall. inversion Hall as [| ? ? Hj Hjs]; subst.
      apply IH in Hjs as [ms Hms]. rewrite Hms.
      destruct Hj as [Hj | ->]; [| by eexists].
      destruct j; try contradiction. by eexists.
Qed.

Lemma decode_map_Err j err :
  decode_map j = Err err ->
  err = "json: cannot unmarshal into Go value of type map[string]interface {}".
Proof. destruct j; cbn; congruence. Qed.

Lemma decode_map_mistyped j :
  ~ is_object j -> j <> JNull -> exists err, decode_map j = Err err.
Proof.
  intros Hobj Hnull. destruct j; cbn in *; try done; eauto.
Qed.

Lemma decode_maps_Err_in elems j :
  j ∈ elems -> ~ is_object j -> j <> JNull ->
  exists err,
    decode_maps elems = Err err /\
    err = "json: cannot unmarshal into Go value of type map[string]interface {}".
Proof.
  intros Hin Hobj Hnull.
  induction Hin as [j l | j j' l _ IH]; cbn [decode_maps].
  - destruct (decode_map_mistyped j Hobj Hnull) as [err He].
    rewrite He. exists err. split; [done | by eapply decode_map_Err].
  - destruct (IH Hobj Hnull) as (err & He & ->). rewrite He.
    destruct (decode_map j') as [m | err'] eqn:Hj'; [eauto |].
    exists err'. split; [done | by eapply decode_map_Err].
Qed.

Lemma decode_maps_Err_empty rc err :
  Decode_maps rc = Err err -> giid rc = ("", Some err).
Proof. intros Hd. unfold giid. by rewrite Hd. Qed.

Lemma giid_error_empty rc :
  is_Some (giid rc).2 -> (giid rc).1 = "".
Proof.
  unfold giid. destruct (Decode_maps rc) as [result | err]; [| done].
  destruct (bool_decide _); [done |].
  destruct (assert_string _) as [g [|]] eqn:Ha; cbn.
  - by intros [? ?].
  - intros _. unfold assert_string in Ha.
    destruct (_ !! "giid") as [[] |]; by inversion Ha.
Qed.

End MoreDecoding.

(** X10: whenever [giid] or [installation] returns an error, the
    identifier returned with it is the empty string. *)
Theorem identifier_empty_on_error `{Platform} :
  (forall rc, is_Some (giid rc).2 -> (giid rc).1 = "") /\
  (forall username c,
     is_Some (installation username c).1.2 -> (installation username c).1.1 = "").
Proof.
  split; [apply giid_error_empty |].
  intros username c. unfold installation. run_M.
  destruct (newRequest _ _ _) as [q | e]; [| done].
  destruct (Do _ _) as [cl [res | e]]; [| done].
  destruct (bool_decide _); [done |]. cbn [fst].
  apply giid_error_empty.
Qed.

(** X11: [giid] succeeds with [s] exactly when the body reads as an
    array whose first element is an object that binds [giid] to the
    string [s], and whose other elements are objects or [null]. *)
Theorem giid_success_iff `{Platform} rc s :
  giid rc = (s, None) <->
  exists members rest,
    json_read rc = Ok (JArray (JObject members :: rest)) /\
    Forall (fun j => is_object j \/ j = JNull) rest /\
    member "giid" members = Some (JString s).
Proof.
  split.
  - unfold giid, Decode_maps.
    destruct (json_read rc) as [j | err]; [| discriminate].
    destruct j as [| | | | elems |]; try discriminate.
    destruct elems as [| j0 rest]; [discriminate |].
    cbn [decode_maps].
    destruct (decode_map j0) as [m |] eqn:Hm; [| discriminate].
    destruct (decode_maps rest) as [ms |] eqn:Hms; [| discriminate].
    rewrite bool_decide_eq_false_2 by (cbn; lia).
    change ((m :: ms) !!! 0%nat) with m.
    destruct j0; try discriminate; cbn in Hm; injection Hm as <-.
    + rewrite lookup_empty. discriminate.
    + rewrite store_members_lookup.
      destruct (member "giid" members) as [[] |] eqn:Hg; try discriminate.
      intros [= <-]. exists members, rest.
      split; [done |]. split; [| done].
      apply decode_maps_Ok_iff. by exists ms.
  - intros (members & rest & Hread & Hrest & Hg).
    apply decode_maps_Ok_iff in Hrest as [ms Hms].
    rewrite (giid_of_result rc (store_members members) ms).
    + by rewrite store_members_lookup, Hg.
    + unfold Decode_maps. rewrite Hread. cbn [decode_maps decode_map].
      by rewrite Hms.
Qed.

(** X12: one element of the array that is neither an object nor [null]
    makes [giid] fail with the decoder's error, wherever the element
    stands and whatever the first record holds. *)
Theorem giid_mistyped_element `{Platform} rc elems j :
  json_read rc = Ok (JArray elems) ->
  j ∈ elems ->
  ~ is_object j ->
  j <> JNull ->
  exists err, giid rc = ("", Some err) /\
              err <> Errorf "no giid found" /\
              err <> Errorf "no installations found".
Proof.
  intros Hread Hin Hobj Hnull.
  destruct (decode_maps_Err_in elems j Hin Hobj Hnull) as (err & He & ->).
  eexists. split.
  - apply decode_maps_Err_empty. unfold Decode_maps. rewrite Hread. exact He.
  - unfold Errorf. split; discriminate.
Qed.

Lemma giid_mistyped_element_witness :
  exists err,
    @giid Replay.mixed "[{'giid': 'ABC123'}, 5]" = ("", Some err) /\
    err <> Errorf "no giid found" /\
    err <> Errorf "no installations found".
Proof.
  apply (@giid_mistyped_element Replay.mixed "[{'giid': 'ABC123'}, 5]"
           [JObject [("giid", JString "ABC123")]; JNumber "5"] (JNumber "5")).
  - reflexivity.
  - apply list_elem_of_further, list_elem_of_here.
  - intros [].
  - discriminate.
Defined.

(** X13: a body that reads as [null] is an empty list of installations,
    and a first element that is [null] is a record without [giid]. *)
Theorem giid_null `{Platform} rc :
  (json_read rc = Ok JNull ->
   giid rc = ("", Some (Errorf "no installations found"))) /\
  (forall rest,
     json_read rc = Ok (JArray (JNull :: rest)) ->
     Forall (fun j => is_object j \/ j = JNull) rest ->
     giid rc = ("", Some (Errorf "no giid found"))).
Proof.
  split.
  - intros Hread. apply giid_no_installations.
    unfold Decode_maps. by rewrite Hread.
  - intros rest Hread Hrest.
    apply decode_maps_Ok_iff in Hrest as [ms Hms].
    rewrite (giid_of_result rc ∅ ms).
    + by rewrite lookup_empty.
    + unfold Decode_maps. rewrite Hread. cbn [decode_maps decode_map].
      by rewrite Hms.
Qed.


(** ** Further properties: the resource client *)

Section Resource.
Context `{Platform}.

(** The request of [Overview] for a configuration. *)
Lemma Overview_requests c :
  let q := mkRequest MethodGet
             (Verisure.baseURL (self c) +:+ "/installation/"
                +:+ Verisure.giid (self c) +:+ "/overview")
             json_headers None None in
  issued (Overview c).2 = issued c \/
  issued (Overview c).2 = (issued c ++ [q])%list.
Proof.
  intros q. unfold Overview. run_M. unfold newRequest, http_NewRequest.
  destruct (url_Parse _); [by left |]. right. cbn [self issued].
  destruct (Do _ _) as [cl [res | e]]; [| done].
  destruct (bool_decide _); [done |].
  by destruct (json_Decode_Overview _) as [o [e |]].
Qed.

Lemma Overview_frame c :
  Verisure.baseURL (self (Overview c).2) = Verisure.baseURL (self c) /\
  Verisure.giid (self (Overview c).2) = Verisure.giid (self c).
Proof.
  unfold Overview. run_M. destruct (newRequest _ _ _) as [q | e]; [| done].
  destruct (Do _ _) as [cl [res | e]]; [| done].
  destruct (bool_decide _); [done |].
  by destruct (json_Decode_Overview _) as [o [e |]].
Qed.

Lemma UpdateSmartplug_frame updates c :
  Verisure.baseURL (self (UpdateSmartplug updates c).2) = Verisure.baseURL (self c) /\
  Verisure.giid (self (UpdateSmartplug updates c).2) = Verisure.giid (self c).
Proof.
  unfold UpdateSmartplug. destruct (json_Marshal updates) as [bs | e]; [| done].
  run_M. destruct (newRequest _ _ _) as [q | e]; [| done].
  destruct (Do _ _) as [cl [res | e]]; [| done].
  by destruct (bool_decide _).
Qed.

Lemma Logout_frame c :
  Verisure.baseURL (self (Logout c).2) = Verisure.baseURL (self c) /\
  Verisure.giid (self (Logout c).2) = Verisure.giid (self c).
Proof.
  unfold Logout. run_M. destruct (http_NewRequest _ _ _) as [q | e]; [| done].
  destruct (Do _ _) as [cl [res | e]]; [| done].
  by destruct (bool_decide _).
Qed.

Lemma status_200 (res : Response) :
  bool_decide (StatusCode res ≠ StatusOK) = false <-> StatusCode res = 200.
Proof.
  split.
  - intros Hb. apply bool_decide_eq_false_1 in Hb.
    destruct (decide (StatusCode res = 200)); [done | by destruct Hb].
  - intros Hs. apply bool_decide_eq_false_2. intros Hne. by apply Hne.
Qed.

End Resource.

(** X14: [Logout] returns [nil] exactly when its request could be built
    and the exchange gave a response with status 200; the request is the
    [DELETE] on [{baseURL}/cookie], without headers, credentials or
    body. *)
Theorem Logout_nil_iff `{Platform} c :
  (Logout c).1 = None <->
  url_Parse (Verisure.baseURL (self c) +:+ "/cookie") = None /\
  exists cl res,
    Do (Verisure.client (self c))
       (mkRequest "DELETE" (Verisure.baseURL (self c) +:+ "/cookie") ∅ None None)
      = (cl, Ok res) /\
    StatusCode res = 200.
Proof.
  unfold Logout. run_M. unfold http_NewRequest, MethodDelete.
  destruct (url_Parse _) as [err |]; cbn [fst].
  - split; [discriminate | by intros [? _]].
  - cbn [self issued].
    destruct (Do _ _) as [cl [res | err]]; cbn [fst].
    + destruct (bool_decide _) eqn:Hs; cbn [fst].
      * split; [discriminate |].
        intros (_ & cl' & res' & [= -> ->] & Hs').
        apply status_200 in Hs'. congruence.
      * split; [| done]. intros _. split; [done |].
        exists cl, res. split; [done | by apply status_200].
    + split; [discriminate |]. by intros (_ & cl' & res' & [=] & _).
Qed.

(** X15: [Overview] returns no error exactly when its request could be
    built, the exchange gave a response with status 200 and the decoding
    of the body gave no error; the request is the [GET] on
    [{baseURL}/installation/{giid}/overview] with the two JSON headers. *)
Theorem Overview_nil_iff `{Platform} c :
  (Overview c).1.2 = None <->
  let url := Verisure.baseURL (self c) +:+ "/installation/"
               +:+ Verisure.giid (self c) +:+ "/overview" in
  url_Parse url = None /\
  exists cl res,
    Do (Verisure.client (self c)) (mkRequest "GET" url json_headers None None)
      = (cl, Ok res) /\
    StatusCode res = 200 /\
    (json_Decode_Overview (Body res)).2 = None /\
    (Overview c).1.1 = (json_Decode_Overview (Body res)).1.
Proof.
  unfold Overview. run_M. unfold newRequest, http_NewRequest, MethodGet.
  destruct (url_Parse _) as [err |]; cbn [fst snd].
  - split; [discriminate | by intros [? _]].
  - change (Header_update _ (Header_update _ _))
      with (mkRequest "GET"
              (Verisure.baseURL (self c) +:+ "/installation/"
                 +:+ Verisure.giid (self c) +:+ "/overview")
              json_headers None None).
    cbn [self issued].
    destruct (Do _ _) as [cl [res | err]]; cbn [fst snd].
    + destruct (bool_decide _) eqn:Hs; cbn [fst snd].
      * split; [discriminate |].
        intros (_ & cl' & res' & [= -> ->] & Hs' & _).
        apply status_200 in Hs'. congruence.
      * destruct (json_Decode_Overview (Body res)) as [o [e |]] eqn:Hdec;
          cbn [fst snd].
        -- split; [discriminate |].
           intros (_ & cl' & res' & [= -> ->] & _ & Hd & _).
           rewrite Hdec in Hd. discriminate.
        -- split; [| done]. intros _. split; [done |].
           exists cl, res. rewrite Hdec.
           split; [done |]. split; [by apply status_200 | done].
    + split; [discriminate |]. by intros (_ & cl' & res' & [=] & _).
Qed.

(** X16: [Overview] returns a value other than the zero [Overview] only
    from the decoder run on the body of a response with status 200: the
    body of a refused request is never decoded. *)
Theorem Overview_decodes_only_200 `{Platform} c :
  (Overview c).1.1 <> zero_Overview ->
  exists q cl res,
    issued (Overview c).2 = (issued c ++ [q])%list /\
    Do (Verisure.client (self c)) q = (cl, Ok res) /\
    StatusCode res = 200 /\
    (Overview c).1.1 = (json_Decode_Overview (Body res)).1.
Proof.
  unfold Overview. run_M.
  destruct (newRequest _ _ _) as [q | e]; cbn [fst snd]; [| done].
  cbn [self issued].
  destruct (Do _ _) as [cl [res | err]] eqn:HD; cbn [fst snd]; [| done].
  destruct (bool_decide _) eqn:Hs; cbn [fst snd]; [done |].
  intros _. exists q, cl, res.
  destruct (json_Decode_Overview (Body res)) as [o [e |]]; cbn;
    (split; [done |]; split; [done |]; split; [by apply status_200 | done]).
Qed.

Lemma Overview_decodes_only_200_witness :
  let c := mkCfg Replay.session
             (Verisure.mk _ "https://e-api02.verisure.com/xbn/2" "ABC123"
                ([Scripted.status 200 "200 OK" "{'armstateCompatible': true}"]
                   : @Client Replay.session)) [] in
  exists q cl res,
    issued (Overview c).2 = (issued c ++ [q])%list /\
    @Do Replay.session (Verisure.client (self c)) q = (cl, Ok res) /\
    StatusCode res = 200 /\
    (Overview c).1.1 = (@json_Decode_Overview Replay.session (Body res)).1.
Proof.
  apply (@Overview_decodes_only_200 Replay.session). discriminate.
Defined.

(** X17: [UpdateSmartplug] returns [nil] exactly when the updates were
    serialized, the request could be built and the exchange gave a
    response with status 200; the request is the [POST] on
    [{baseURL}/installation/{giid}/smartplug/state] with the two JSON
    headers and the serialization as body. *)
Theorem UpdateSmartplug_nil_iff `{Platform} updates c :
  (UpdateSmartplug updates c).1 = None <->
  let url := Verisure.baseURL (self c) +:+ "/installation/"
               +:+ Verisure.giid (self c) +:+ "/smartplug/state" in
  exists bs,
    json_Marshal updates = Ok bs /\
    url_Parse url = None /\
    exists cl res,
      Do (Verisure.client (self c))
         (mkRequest "POST" url json_headers None (Some bs)) = (cl, Ok res) /\
      StatusCode res = 200.
Proof.
  unfold UpdateSmartplug. destruct (json_Marshal updates) as [bs | e]; cbn [fst].
  2: { split; [discriminate | by intros (bs & [=] & _)]. }
  run_M. unfold newRequest, http_NewRequest, MethodPost.
  destruct (url_Parse _) as [err |]; cbn [fst].
  - split; [discriminate | by intros (bs' & _ & [=] & _)].
  - change (Header_update _ (Header_update _ _))
      with (mkRequest "POST"
              (Verisure.baseURL (self c) +:+ "/installation/"
                 +:+ Verisure.giid (self c) +:+ "/smartplug/state")
              json_headers None (Some bs)).
    cbn [self issued].
    destruct (Do _ _) as [cl [res | err]] eqn:HD; cbn [fst].
    + destruct (bool_decide _) eqn:Hs; cbn [fst].
      * split; [discriminate |].
        intros (bs' & [= <-] & _ & cl' & res' & HD' & Hs').
        rewrite HD in HD'. injection HD' as <- <-.
        apply status_200 in Hs'. congruence.
      * split; [| done]. intros _. exists bs. split; [done |]. split; [done |].
        exists cl, res. split; [done | by apply status_200].
    + split; [discriminate |].
      intros (bs' & [= <-] & _ & cl' & res' & HD' & _).
      rewrite HD in HD'. discriminate.
Qed.

(** X18: [Overview] and [UpdateSmartplug] return with [baseURL] and
    [giid] as they were: only [Login] writes the session fields. *)
Theorem resource_calls_keep_session_fields `{Platform} c :
  (Verisure.baseURL (self (Overview c).2) = Verisure.baseURL (self c) /\
   Verisure.giid (self (Overview c).2) = Verisure.giid (self c)) /\
  (forall updates,
     Verisure.baseURL (self (UpdateSmartplug updates c).2) = Verisure.baseURL (self c) /\
     Verisure.giid (self (UpdateSmartplug updates c).2) = Verisure.giid (self c)).
Proof.
  split; [apply Overview_frame | intros; apply UpdateSmartplug_frame].
Qed.

(** ** Further properties: sequences of calls *)

Section Sequences.
Context `{Platform}.

Lemma auth_requests_Method username password urls q :
  q ∈ auth_requests username password urls -> Method q = MethodPost.
Proof.
  unfold auth_requests. intros Hq.
  apply list_elem_of_fmap in Hq as (u & -> & _). reflexivity.
Qed.

(** [Login] issues [POST]s and at most a final [GET]. *)
Lemma Login_Methods urls username password c q :
  q ∈ issued (Login urls username password c).2 ->
  q ∈ issued c \/ Method q = MethodPost \/ Method q = MethodGet.
Proof.
  destruct (Login_after_tryURLs username password urls c) as (_ & _ & Hi).
  unfold tryURLs in Hi.
  destruct (tryURLs_range_prefix username password urls None c)
    as (k & _ & Ht & _).
  destruct Hi as [Hi | [_ Hi]]; rewrite Hi, Ht; intros Hq;
    repeat (apply elem_of_app in Hq as [Hq | Hq]); auto.
  - right. left. by eapply auth_requests_Method.
  - right. left. by eapply auth_requests_Method.
  - apply list_elem_of_singleton in Hq as ->. auto.
Qed.

(** A [Login] that returns [nil] ends with the search at the endpoint it
    leaves in [baseURL]. *)
Lemma Login_nil_last urls username password c :
  (Login urls username password c).1 = None ->
  last (issued (Login urls username password c).2) =
    Some (searchRequest
            (Verisure.baseURL (self (Login urls username password c).2)) username).
Proof.
  unfold Login. run_M.
  destruct (tryURLs urls username password c) as [[e |] c1]; cbn [fst snd];
    [discriminate |].
  unfold installation. run_M. unfold newRequest, http_NewRequest.
  destruct (url_Parse _); [discriminate |].
  change (Header_update _ (Header_update _ _))
    with (searchRequest (Verisure.baseURL (self c1)) username).
  cbn [self issued].
  destruct (Do _ _) as [cl [res | err]]; [| discriminate].
  destruct (bool_decide _); [discriminate |].
  destruct (giid (Body res)) as [g [e |]]; [discriminate |].
  cbn. intros _. by rewrite last_snoc.
Qed.

End Sequences.

(** X19: the overview after a login.  When [Login] over a non-empty list
    has returned [nil], the request of the next [Overview] goes to
    [{u}/installation/{g}/overview], where [u] is the endpoint of the list
    whose search was the last request of [Login] and [g] is the identifier
    [Login] stored. *)
Theorem Overview_after_Login `{Platform} urls username password c :
  urls <> [] ->
  (Login urls username password c).1 = None ->
  let c1 := (Login urls username password c).2 in
  url_Parse (Verisure.baseURL (self c1) +:+ "/installation/"
               +:+ Verisure.giid (self c1) +:+ "/overview") = None ->
  exists u,
    u ∈ urls /\
    last (issued c1) = Some (searchRequest u username) /\
    issued (Overview c1).2 =
      (issued c1
         ++ [mkRequest "GET"
               (u +:+ "/installation/" +:+ Verisure.giid (self c1) +:+ "/overview")
               json_headers None None])%list.
Proof.
  intros Hne Hnil c1 Hu.
  exists (Verisure.baseURL (self c1)). split; [| split].
  - subst c1.
    destruct (Login_after_tryURLs username password urls c) as (-> & _).
    unfold tryURLs.
    destruct (tryURLs_range_prefix username password urls None c)
      as (k & _ & _ & H0 & Hb & _).
    destruct k as [| k']; [by destruct (H0 eq_refl) |].
    eapply list_elem_of_lookup_2. apply Hb. lia.
  - apply Login_nil_last. exact Hnil.
  - exact (Overview_issues_request c1 Hu).
Qed.

Lemma Overview_after_Login_witness :
  let c1 := (@Login Replay.session apiURLs "alice" "secret" (mkCfg _ New [])).2 in
  exists u,
    u ∈ apiURLs /\
    last (issued c1) = Some (searchRequest u "alice") /\
    issued (Overview c1).2 =
      (issued c1
         ++ [mkRequest "GET"
               (u +:+ "/installation/" +:+ Verisure.giid (self c1) +:+ "/overview")
               json_headers None None])%list.
Proof.
  apply (@Overview_after_Login Replay.session apiURLs "alice" "secret"
           (mkCfg _ New [])).
  - discriminate.
  - reflexivity.
  - reflexivity.
Defined.

(** X20: nothing local stands between [Logout] and a later call.  After
    [Logout], whatever it returned, [Overview] issues the same request it
    would have issued before. *)
Theorem Overview_after_Logout `{Platform} c :
  let url := Verisure.baseURL (self c) +:+ "/installation/"
               +:+ Verisure.giid (self c) +:+ "/overview" in
  url_Parse url = None ->
  issued (Overview (Logout c).2).2 =
    (issued (Logout c).2 ++ [mkRequest "GET" url json_headers None None])%list.
Proof.
  intros url Hu. subst url.
  destruct (Logout_frame c) as [Hb Hg].
  rewrite <- Hb, <- Hg in Hu |- *.
  exact (Overview_issues_request (Logout c).2 Hu).
Qed.

Lemma Overview_after_Logout_witness :
  let c := mkCfg Replay.session
             (Verisure.mk _ "https://e-api02.verisure.com/xbn/2" "ABC123"
                ([Scripted.status 200 "200 OK" ""] : @Client Replay.session)) [] in
  issued (Overview (Logout c).2).2 =
    (issued (Logout c).2
       ++ [mkRequest "GET"
             "https://e-api02.verisure.com/xbn/2/installation/ABC123/overview"
             json_headers None None])%list.
Proof.
  apply (@Overview_after_Logout Replay.session). reflexivity.
Defined.

(** ** Further properties: the command *)

Section Command.
Context `{Platform}.


(** Neither [Login] on a new client nor [Overview] after it issues a
    [DELETE]. *)
Lemma no_DELETE_before_Logout username password q :
  let c1 := (Login apiURLs username password (mkCfg _ New [])).2 in
  (q ∈ issued c1 \/ q ∈ issued (Overview c1).2) ->
  Method q <> MethodDelete.
Proof.
  intros c1 Hq.
  assert (Hlogin : forall q', q' ∈ issued c1 -> Method q' <> MethodDelete).
  { intros q' Hq'. apply Login_Methods in Hq' as [Hq' | [-> | ->]];
      [by apply elem_of_nil in Hq' | discriminate | discriminate]. }
  destruct Hq as [Hq | Hq]; [by apply Hlogin |].
  destruct (Overview_requests c1) as [Hi | Hi]; rewrite Hi in Hq.
  - by apply Hlogin.
  - apply elem_of_app in Hq as [Hq | Hq]; [by apply Hlogin |].
    apply list_elem_of_singleton in Hq as ->. discriminate.
Qed.

End Command.


(** X22: when [Login] succeeds and [Overview] returns an error, [main]
    writes that error to standard error and exits with status 2 without
    printing anything and without logging out: no [DELETE] request has
    been issued. *)
Theorem main_overview_failure_no_logout `{Platform} username password e :
  let l := Login apiURLs username password (mkCfg _ New []) in
  l.1 = None ->
  (Overview l.2).1.2 = Some e ->
  Cmd.main username password = (Cmd.mkOutput [] [e], 2, (Overview l.2).2) /\
  Forall (fun q => Method q <> MethodDelete) (issued (Overview l.2).2).
Proof.
  intros l Hl Ho. split.
  - subst l. unfold Cmd.main.
    destruct (Login _ _ _ _) as [[e' |] c1]; cbn in *; [discriminate |].
    destruct (Overview c1) as [[o [e' |]] c2]; cbn in *; [| discriminate].
    by injection Ho as ->.
  - apply Forall_forall. intros q Hq.
    apply (no_DELETE_before_Logout username password q). by right.
Qed.

Lemma main_overview_failure_no_logout_witness :
  let l := @Login Replay.overview_refused apiURLs "alice" "secret"
             (mkCfg _ New []) in
  @Cmd.main Replay.overview_refused "alice" "secret" =
    (Cmd.mkOutput [] ["overview: 500 500 Internal Server Error"], 2,
     (Overview l.2).2) /\
  Forall (fun q => Method q <> MethodDelete) (issued (Overview l.2).2).
Proof.
  apply (@main_overview_failure_no_logout Replay.overview_refused
           "alice" "secret" "overview: 500 500 Internal Server Error");
    reflexivity.
Defined.

(** X23: [main] prints the overview before it logs out: when [Login] and
    [Overview] succeed and [Logout] returns an error, the overview is on
    standard output, the error on standard error, and the status is 2. *)
Theorem main_prints_before_logout `{Platform} username password o e :
  let l := Login apiURLs username password (mkCfg _ New []) in
  l.1 = None ->
  (Overview l.2).1 = (o, None) ->
  (Logout (Overview l.2).2).1 = Some e ->
  Cmd.main username password =
    (Cmd.mkOutput [o] [e], 2, (Logout (Overview l.2).2).2).
Proof.
  intros l Hl Ho Hd. subst l. unfold Cmd.main.
  destruct (Login _ _ _ _) as [[e' |] c1]; cbn in *; [discriminate |].
  destruct (Overview c1) as [[o' [e' |]] c2]; cbn in *; [discriminate |].
  injection Ho as ->.
  destruct (Logout c2) as [[e' |] c3]; cbn in *; [| discriminate].
  by injection Hd as ->.
Qed.

Lemma main_prints_before_logout_witness :
  let l := @Login Replay.logout_lost apiURLs "alice" "secret" (mkCfg _ New []) in
  @Cmd.main Replay.logout_lost "alice" "secret" =
    (Cmd.mkOutput [("{'armstateCompatible': true}" : @OverviewData Replay.logout_lost)]
       ["EOF"], 2,
     (Logout (Overview l.2).2).2).
Proof.
  apply (@main_prints_before_logout Replay.logout_lost "alice" "secret");
    reflexivity.
Defined.



(** ** Further properties: the earlier revision *)

(** X25: in the earlier revision [Overview] panics exactly when the
    client holds no installation record. *)
Theorem Legacy_Overview_panics_iff `{Platform} (v : Legacy.Verisure) log :
  (exists msg, Legacy.Overview v log = Legacy.Panics msg) <->
  Legacy.installations v = [].
Proof.
  unfold Legacy.Overview, Legacy.index.
  destruct (Legacy.installations v) as [| i0 rest]; cbn.
  - split; [done | eauto].
  - split; [| done]. intros [msg Hp]. exfalso. revert Hp.
    destruct (newRequest _ _ _) as [q | e]; [| discriminate].
    destruct (Legacy.client_Do q v log) as [[res | e] vl]; [| discriminate].
    destruct (bool_decide _); [discriminate |].
    by destruct (json_Decode_Overview _) as [o [e |]].
Qed.

(** X26: with at least one installation record the earlier [Overview]
    returns, having used the identifier of the first record only: its
    request, if it issued one, is the [GET] on
    [{baseURL}/installation/{GIID of the first}/overview]; the records
    and [baseURL] are as they were. *)
Theorem Legacy_Overview_first_installation `{Platform}
    (v : Legacy.Verisure) log i0 rest :
  Legacy.installations v = i0 :: rest ->
  exists r v' log',
    Legacy.Overview v log = Legacy.Returns (r, (v', log')) /\
    Legacy.installations v' = i0 :: rest /\
    Legacy.baseURL v' = Legacy.baseURL v /\
    (log' = log \/
     log' =
       (log ++ [mkRequest "GET"
                  (Legacy.baseURL v +:+ "/installation/" +:+ Legacy.GIID i0
                     +:+ "/overview")
                  json_headers None None])%list).
Proof.
  intros Hi. unfold Legacy.Overview, Legacy.index. rewrite Hi. cbn [lookup list_lookup].
  unfold newRequest, http_NewRequest.
  destruct (url_Parse _) as [e |].
  - eexists _, v, log. split; [reflexivity |]. auto.
  - unfold Legacy.client_Do. cbn [Header_update].
    change (Header_Add "Content-Type" mediaType (Header_Add "Accept" mediaType ∅))
      with json_headers.
    destruct (Do _ _) as [cl [res | e]].
    + destruct (bool_decide _).
      * eexists _, _, _. split; [reflexivity |]. cbn. rewrite Hi. auto.
      * destruct (json_Decode_Overview _) as [o [e |]];
          eexists _, _, _; (split; [reflexivity |]); cbn; rewrite Hi; auto.
    + eexists _, _, _. split; [reflexivity |]. cbn. rewrite Hi. auto.
Qed.

Lemma Legacy_Overview_first_installation_witness :
  let i0 := Legacy.mkInstallation "ABC123" 1 "" 0 "sv_SE" 0 false "" "" "" "" "Home" in
  let i1 := Legacy.mkInstallation "ZZZ999" 1 "" 0 "sv_SE" 0 false "" "" "" "" "Cabin" in
  let v := @Legacy.mkVerisure Scripted.one_ok
             "https://e-api01.verisure.com/xbn/2" fresh_Client [i0; i1] in
  exists r v' log',
    Legacy.Overview v [] = Legacy.Returns (r, (v', log')) /\
    Legacy.installations v' = i0 :: [i1] /\
    Legacy.baseURL v' = Legacy.baseURL v /\
    (log' = [] \/
     log' =
       ([] ++ [mkRequest "GET"
                 (Legacy.baseURL v +:+ "/installation/" +:+ Legacy.GIID i0
                    +:+ "/overview")
                 json_headers None None])%list).
Proof.
  intros i0 i1 v.
  apply (@Legacy_Overview_first_installation Scripted.one_ok v [] i0 [i1]).
  reflexivity.
Defined.

(** X27: the earlier [Login] does not look at what the search returned.
    When [tryURLs] has succeeded and the search is answered with status
    200 and a body that the decoder turns into no record at all, [Login]
    returns [nil], and the next [Overview] panics. *)
Theorem Legacy_Login_accepts_no_installation `{Platform} decode urls
    username password (v : Legacy.Verisure) log v1 log1 cl res :
  Legacy.tryURLs urls username password v log = (None, (v1, log1)) ->
  url_Parse (Legacy.baseURL v1 +:+ "/installation/search?email=" +:+ username)
    = None ->
  Do (Legacy.client v1) (searchRequest (Legacy.baseURL v1) username)
    = (cl, Ok res) ->
  StatusCode res = 200 ->
  decode (Body res) (Legacy.installations v1) = ([], None) ->
  exists v2 log2,
    Legacy.Login decode urls username password v log = (None, (v2, log2)) /\
    log2 = (log1 ++ [searchRequest (Legacy.baseURL v1) username])%list /\
    Legacy.Overview v2 log2 =
      Legacy.Panics "runtime error: index out of range [0] with length 0".
Proof.
  intros Htry Hu HD Hs Hdec.
  unfold Legacy.Login. rewrite Htry.
  unfold Legacy.Verisure_installation.
  rewrite (newRequest_built _ _ _ Hu).
  change (mkRequest MethodGet _ json_headers None None)
    with (searchRequest (Legacy.baseURL v1) username).
  unfold Legacy.client_Do. rewrite HD.
  rewrite bool_decide_eq_false_2 by (intros Hne; by apply Hne).
  cbn [Legacy.installations Legacy.baseURL Legacy.client]. rewrite Hdec.
  eexists _, _. split; [reflexivity |]. split; [reflexivity |]. reflexivity.
Qed.

Lemma Legacy_Login_accepts_no_installation_witness :
  let v1 := @Legacy.mkVerisure Scripted.no_installation
              "https://e-api01.verisure.com/xbn/2"
              ([Scripted.status 200 "200 OK" "[]"] : @Client Scripted.no_installation)
              [] in
  let log1 := [authRequest "https://e-api01.verisure.com/xbn/2" "alice" "secret"] in
  exists v2 log2,
    @Legacy.Login Scripted.no_installation Replay.decode_installations
      apiURLs "alice" "secret" Legacy.New [] = (None, (v2, log2)) /\
    log2 = (log1 ++ [searchRequest (Legacy.baseURL v1) "alice"])%list /\
    Legacy.Overview v2 log2 =
      Legacy.Panics "runtime error: index out of range [0] with length 0".
Proof.
  intros v1 log1.
  apply (@Legacy_Login_accepts_no_installation Scripted.no_installation
           Replay.decode_installations apiURLs "alice" "secret" Legacy.New []
           v1 log1 [] (mkResponse 200 "200 OK" "[]")).
  - reflexivity.
  - reflexivity.
  - reflexivity.
  - reflexivity.
  - reflexivity.
Defined.
